(** * Export pipeline of vscode-code-review

    A shallow embedding of the two implementations of [ExportFactory] found in
    the repository:

    - [HandlerMap]: src/src/export-factory.ts, where every export format is a
      bundle of callbacks stored in [exportHandlerMap] and driven by
      [exportForFormat];
    - [PerFormat]: src/unnamed/part_000, where every export format has its own
      method ([exportAsHtml], [exportAsGitLabCsv], ...).

    JavaScript strings are modelled by [string] (one character per code unit),
    a property that may be [undefined] by [option string], arrays by lists,
    and row objects that are mutated in place by cells of a list addressed by
    position. *)

From Stdlib Require Import String Ascii ZArith Lia DecimalString Decimal DecimalNat.
From stdpp Require Import base list strings sorting.

(** ** JavaScript primitives used by the sources *)

Module JS.

(** The double quote character, and the line feed character. *)
Definition dquote : string := String "034"%char EmptyString.
Definition LF : string := String "010"%char EmptyString.

(** Truthiness of a string value: only the empty string is falsy. *)
Definition truthy (s : string) : bool := negb (String.eqb s EmptyString).

(** Truthiness of a property that is a string or [undefined]. *)
Definition otruthy (o : option string) : bool :=
  match o with
  | Some s => truthy s
  | None => false
  end.

(** [a || d] on a string-or-undefined [a] and a string [d]. *)
Definition or_else (o : option string) (d : string) : option string :=
  if otruthy o then o else Some d.

(** A value interpolated in a template literal. *)
Definition tpl (o : option string) : string :=
  match o with
  | Some s => s
  | None => "undefined"
  end.

(** [s.substring(0, n)]. *)
Definition substring0 (n : nat) (s : string) : string := String.substring 0 n s.

(** [s.split(sep)] for a separator of one character: the result is never
    empty, and the empty string splits into one empty piece. *)
Fixpoint split (sep : ascii) (s : string) : list string :=
  match s with
  | EmptyString => [EmptyString]
  | String c s' =>
      if Ascii.eqb c sep then EmptyString :: split sep s'
      else match split sep s' with
           | t :: ts => String c t :: ts
           | [] => [String c EmptyString]
           end
  end.

(** [l.join(sep)]. *)
Definition join (sep : string) (l : list string) : string := String.concat sep l.

(** [l.sort(cmp)]: the sort is stable, and [cmp a b <= 0] keeps [a] before
    [b].  Every stable sort gives the same array for a consistent
    comparator; insertion from the right is the one written here. *)
Fixpoint insert_sorted {A} (cmp : A -> A -> Z) (x : A) (l : list A) : list A :=
  match l with
  | [] => [x]
  | y :: l' => if (cmp x y <=? 0)%Z then x :: y :: l' else y :: insert_sorted cmp x l'
  end.

Definition sort {A} (cmp : A -> A -> Z) (l : list A) : list A :=
  foldr (insert_sorted cmp) [] l.

(** The decimal numeral of a natural number, as [String(n)] prints it. *)
Definition string_of_nat (n : nat) : string := NilZero.string_of_uint (Nat.to_uint n).

(** The array index a property key denotes: a key is an index when it is
    the canonical decimal numeral of a natural number (so [1] is one, and
    a numeral with a leading zero, or [undefined], is none). *)
Definition array_index (key : string) : option nat :=
  match NilZero.uint_of_string key with
  | Some u => if String.eqb (string_of_nat (Nat.of_uint u)) key then Some (Nat.of_uint u) else None
  | None => None
  end.

(** What a property read [arr[key]] on an array of strings gives. *)
Inductive PropertyValue :=
| Element (s : string)       (* the element at an index of the array *)
| Undefined                  (* no property of that name *)
| Length (n : nat)           (* the own property [length], a number *)
| Inherited (text : string). (* a property of the prototype chain, given by
                                the text a template literal shows for it *)

(** [arr[key]] on an array of strings.  The key is converted to a property
    name first, so a number and its numeral read the same element.  An index
    reads the element there, or [undefined] past the end; [length] reads the
    number of elements; any other name is looked up on the prototype chain
    ([constructor], [at], [toString], ...), which [proto] stands for: the
    names it defines depend on the engine. *)
Definition array_get (proto : string -> option string) (arr : list string)
    (key : option string) : PropertyValue :=
  match array_index (tpl key) with
  | Some i =>
      match arr !! i with
      | Some s => Element s
      | None => Undefined
      end
  | None =>
      if String.eqb (tpl key) "length" then Length (length arr)
      else match proto (tpl key) with
           | Some text => Inherited text
           | None => Undefined
           end
  end.

(** A property value interpolated in a template literal. *)
Definition tplValue (v : PropertyValue) : string :=
  match v with
  | Element s => s
  | Undefined => "undefined"
  | Length n => string_of_nat n
  | Inherited text => text
  end.

(** [Number(s)] on a string of decimal digits (other strings are not
    numerals of the range-selector grammar and read as 0 here). *)
Definition number (s : string) : Z :=
  match NilZero.uint_of_string s with
  | Some u => Z.of_nat (Nat.of_uint u)
  | None => 0%Z
  end.

(** Does the character occur in the string? *)
Fixpoint occurs (c : ascii) (s : string) : bool :=
  match s with
  | EmptyString => false
  | String d s' => Ascii.eqb d c || occurs c s'
  end.

(** One step of joining span texts: the separator goes before a text when
    some text is there already. *)
Definition appendSpan (sep : string) (result fileContent : string) : string :=
  if truthy result then result +:+ sep +:+ fileContent else fileContent.

(** A list of texts without its leading empty texts. *)
Fixpoint dropEmpty (l : list string) : list string :=
  match l with
  | [] => []
  | t :: l' => if truthy t then t :: l' else dropEmpty l'
  end.

End JS.

(** ** The row model *)

(** Modelled from the spec: the declaration of [CsvEntry] is not among the
    sources; the fields are those of the spec's data model and of the
    property reads in the sources.  A row is taken as the CSV parser
    delivers it: [filename], [lines] and [comment] are columns every source
    file has; the other cells are strings when the column exists and
    [undefined] otherwise.  [code] is the derived field. *)
Record CsvEntry := mkCsvEntry {
  sha : option string;
  filename : string;
  url : option string;
  lines : string;
  title : option string;
  comment : string;
  priority : option string;
  category : option string;
  additional : option string;
  code : option string
}.

Definition with_lines (v : string) (r : CsvEntry) : CsvEntry :=
  mkCsvEntry (sha r) (filename r) (url r) v (title r) (comment r)
             (priority r) (category r) (additional r) (code r).

Definition with_comment (v : string) (r : CsvEntry) : CsvEntry :=
  mkCsvEntry (sha r) (filename r) (url r) (lines r) (title r) v
             (priority r) (category r) (additional r) (code r).

Definition with_priority (v : option string) (r : CsvEntry) : CsvEntry :=
  mkCsvEntry (sha r) (filename r) (url r) (lines r) (title r) (comment r)
             v (category r) (additional r) (code r).

Definition with_category (v : option string) (r : CsvEntry) : CsvEntry :=
  mkCsvEntry (sha r) (filename r) (url r) (lines r) (title r) (comment r)
             (priority r) v (additional r) (code r).

(** [row.code = v] and [delete row.code] (the latter with [None]). *)
Definition with_code (v : option string) (r : CsvEntry) : CsvEntry :=
  mkCsvEntry (sha r) (filename r) (url r) (lines r) (title r) (comment r)
             (priority r) (category r) (additional r) v.

(** The rows a list of positions stands for, in an array of row objects. *)
Definition deref (store : list CsvEntry) (l : list nat) : list CsvEntry :=
  omap (fun i => store !! i) l.

(** The callback of [rows.forEach] in [groupResults], over what the two
    implementations do differently: [norm], the assignments to the row at
    the head of the callback, and [add], the search for the group of the row
    and the push.  The row at position [i] of the array is mutated in
    place. *)
Definition group_step {S : Type} (norm : CsvEntry -> CsvEntry)
    (add : CsvEntry -> nat -> list S -> list S)
    : list CsvEntry * list S -> nat -> list CsvEntry * list S :=
  fun '(store, reviewExportData) i =>
    match store !! i with
    | Some row =>
        let row := norm row in
        (<[i := row]> store, add row i reviewExportData)
    | None => (store, reviewExportData)
    end.

(** What the groups look like once the rows of [pre] have been handled, for
    groups with the positions [sl] and the name [name], and rows with the
    key [key]: the names are pairwise distinct; no group is empty, each
    holds its positions in ascending order, and every position is that of a
    row of [pre] with the key the group is named after; and the groups come
    in the order of their first rows. *)
Definition GroupsOf {S K : Type} (sl : S -> list nat) (name : S -> K) (key : CsvEntry -> K)
    (pre : list CsvEntry) (d : list S) : Prop :=
  NoDup (name <$> d)
  /\ Forall (fun s =>
               sl s <> [] /\ Sorted lt (sl s)
               /\ Forall (fun p => p < length pre
                                   /\ exists row, pre !! p = Some row /\ key row = name s)
                         (sl s)) d
  /\ Sorted lt ((fun s => hd 0 (sl s)) <$> d).

(** Modelled from the spec: the declaration of the grouping keys is not
    among the sources; the spec names [filename] and [category]. *)
Inductive GroupBy := Group_filename | Group_category.

(** [row[groupAttribute]]. *)
Definition attribute (g : GroupBy) (row : CsvEntry) : option string :=
  match g with
  | Group_filename => Some (filename row)
  | Group_category => category row
  end.

(** The title rule of the CSV renderers in the words of the spec: the
    title of the row cut to 255 characters when the row has one; otherwise
    the first 100 characters of the comment and an ellipsis of three
    characters when the comment is longer than 100 characters; otherwise the
    comment. *)
Inductive TitleRule (row : CsvEntry) : string -> Prop :=
| TitleGiven (t : string) :
    title row = Some t -> t <> EmptyString ->
    TitleRule row (JS.substring0 255 t)
| TitleFromLongComment :
    JS.otruthy (title row) = false ->
    100 < String.length (comment row) ->
    TitleRule row (JS.substring0 100 (comment row) +:+ "...")
| TitleFromComment :
    JS.otruthy (title row) = false ->
    String.length (comment row) <= 100 ->
    TitleRule row (comment row).

(** The export formats. *)
Inductive ExportFormat := html | gitlab | github | jira | json.

(** ** Helpers of utils/workspace-util *)

Module WorkspaceUtil.
Import JS.

(** Modelled from the spec: a resolved range token
    [startLine:startCol-endLine:endCol]; the type is declared outside the
    sources. *)
Record Range := mkRange {
  startLine : Z;
  startCol : Z;
  endLine : Z;
  endCol : Z
}.

(** Modelled from the spec: the start position [(startLine, startCol)] of a
    range token [startLine:startCol-endLine:endCol], the part before the
    dash split at the colon.  The helper that parses tokens is not among
    the sources. *)
Definition startOf (token : string) : Z * Z :=
  let start := hd EmptyString (split "-" token) in
  let parts := split ":" start in
  (number (nth 0 parts EmptyString), number (nth 1 parts EmptyString)).

(** Modelled from the spec: the comparator [sortLineSelections] is not
    among the sources; the spec orders range tokens ascending by start
    line, then by start column. *)
Definition sortLineSelections (a b : string) : Z :=
  let '(la, ca) := startOf a in
  let '(lb, cb) := startOf b in
  if (la =? lb)%Z then (ca - cb)%Z else (la - lb)%Z.

(** Document order on range tokens: [a] starts before [b], or where [b]
    starts. *)
Definition startsBeforeOrAt (a b : string) : Prop :=
  (fst (startOf a) < fst (startOf b)
   \/ (fst (startOf a) = fst (startOf b) /\ snd (startOf a) <= snd (startOf b)))%Z.

(** Two resolved spans are adjacent in the file when the second starts on
    the line after the last line of the first. *)
Definition adjacent (r1 r2 : Range) : bool := (endLine r1 + 1 =? startLine r2)%Z.

(** Modelled from the spec: [escapeEndOfLineForCsv] is not among the
    sources; a line break of a free-text field is stored as an escape
    sequence, here a backslash followed by the letter n. *)
Fixpoint escapeEndOfLineForCsv (s : string) : string :=
  match s with
  | EmptyString => EmptyString
  | String c s' =>
      if Ascii.eqb c "010"
      then String "\" (String "n" (escapeEndOfLineForCsv s'))
      else String c (escapeEndOfLineForCsv s')
  end.

(** Modelled from the spec: [unescapeEndOfLineFromCsv] is not among the
    sources; every stored escape sequence becomes a real line break
    again. *)
Fixpoint unescapeEndOfLineFromCsv (s : string) : string :=
  match s with
  | EmptyString => EmptyString
  | String c s' =>
      match s' with
      | String d s'' =>
          if Ascii.eqb c "\" && Ascii.eqb d "n"
          then String "010" (unescapeEndOfLineFromCsv s'')
          else String c (unescapeEndOfLineFromCsv s')
      | EmptyString => String c EmptyString
      end
  end.

End WorkspaceUtil.

(** ** Effects

    The sources read files, write the output file and talk to the editor.
    Every such call is recorded, in order, next to the value a function
    returns. *)

Module Effects.
Import WorkspaceUtil.

(** What a call of [fs.writeFileSync] writes: a text, the result of
    [JSON.stringify] on an array of rows, or the result of a compiled
    Handlebars template on the grouped rows. *)
Inductive FileData :=
| Text (s : string)
| Json (rows : list CsvEntry)
| Html (templateData : string) (reviewExportData : list (string * list CsvEntry)).

Inductive Effect :=
| ReadRange (filePath : string) (range : Range)
| ReadFile (path : string)
| WriteFile (path : string) (data : FileData)
| AppendFile (path : string) (text : string)
| ShowInformationMessage (msg : string)
| ShowErrorMessage (msg : string)
| ShowPreview (path : string).

Definition W (A : Type) : Type := (A * list Effect)%type.

Definition ret {A} (a : A) : W A := (a, []).

Definition bind {A B} (m : W A) (k : A -> W B) : W B :=
  let '(a, e1) := m in
  let '(b, e2) := k a in
  (b, e1 ++ e2).

Definition emit (e : Effect) : W unit := (tt, [e]).

Definition value {A} (m : W A) : A := fst m.
Definition effects {A} (m : W A) : list Effect := snd m.

Notation "x <- m ;; k" := (bind m (fun x => k))
  (at level 100, m at next level, right associativity).
Notation "m ;;; k" := (bind m (fun _ => k))
  (at level 100, right associativity).

(** [l.forEach] with an accumulator threaded through the callback. *)
Fixpoint foldW {A B} (f : A -> B -> W A) (a : A) (l : list B) : W A :=
  match l with
  | [] => ret a
  | x :: l' => a' <- f a x ;; foldW f a' l'
  end.

(** One callback per element, in order, collecting the results. *)
Fixpoint mapW {A B} (f : A -> W B) (l : list A) : W (list B) :=
  match l with
  | [] => ret []
  | x :: l' => y <- f x ;; ys <- mapW f l' ;; ret (y :: ys)
  end.

(** Is the effect a read of a span of a source file? *)
Definition is_ReadRange (e : Effect) : bool :=
  match e with
  | ReadRange _ _ => true
  | _ => false
  end.

(** The file an effect writes to, when it writes to one. *)
Definition writtenPath (e : Effect) : option string :=
  match e with
  | WriteFile path _ => Some path
  | AppendFile path _ => Some path
  | _ => None
  end.

End Effects.

(** ** The handler-map implementation (src/src/export-factory.ts) *)

Module HandlerMap.
Import JS WorkspaceUtil Effects.

(** What the class takes from outside: [os.EOL], the helpers of
    utils/workspace-util that reach the disk or whose behaviour the spec
    leaves open, the libraries strip-indent and js-base64, and the
    properties arrays inherit in the engine the extension runs in (a name
    gives the text a template literal shows for the property, when the
    prototype chain defines it). *)
Record Host := {
  EOL : string;
  toAbsolutePath : string -> string -> string;
  rangeFromStringDefinition : string -> Z -> Range;
  getFileContentForRange : string -> Range -> string;
  readFileSync : string -> string;
  stripIndent : string -> string;
  encode : string -> string;
  sortCsvEntryForLines : CsvEntry -> CsvEntry -> Z;
  prototypeProperty : string -> option string
}.

(** The fields of an [ExportFactory] object, with the configured priority
    labels ([code-review.priorities]) the object reads when it needs them. *)
Record ExportFactory := {
  workspaceRoot : string;
  defaultFileName : string;
  groupBy : GroupBy;
  includeCodeSelection : bool;
  priorities : list string
}.

(** A group of the report: its name and the rows it holds ([lines] in the
    source), each row given by its position in the array [groupResults] was
    called on. *)
Record ReviewFileExportSection := {
  group : string;
  section_lines : list nat
}.

Definition basePath (h : Host) (this : ExportFactory) : string :=
  toAbsolutePath h (workspaceRoot this) (defaultFileName this).

Definition inputFile (h : Host) (this : ExportFactory) : string :=
  basePath h this +:+ ".csv".

(** [priorityName]: a plain property read on the configured array. *)
Definition priorityName (h : Host) (this : ExportFactory) (priority : option string)
    : PropertyValue :=
  array_get (prototypeProperty h) (priorities this) priority.

(** The separator [getCodeForFile] puts between two texts: the marker on a
    line of its own, followed by an empty line. *)
Definition separator (h : Host) : string :=
  EOL h +:+ "..." +:+ EOL h +:+ EOL h.

(** The range tokens of a selector that [getCodeForFile] reads: the
    non-empty pieces between the bars. *)
Definition rangeStrings (lines : string) : list string :=
  filter (fun t => truthy t = true) (split "|" (if truthy lines then lines else EmptyString)).

(** The text of one span as [getCodeForFile] reads it. *)
Definition spanText (h : Host) (this : ExportFactory) (filename rangeString : string) : string :=
  stripIndent h
    (getFileContentForRange h
       (toAbsolutePath h (workspaceRoot this) (if truthy filename then filename else EmptyString))
       (rangeFromStringDefinition h rangeString 1)).

(** The callback of [lineRanges.forEach] in [getCodeForFile]: the new value
    of [result], with one [ReadRange] effect when a span is read. *)
Definition appendRange (h : Host) (filePath : string) (result rangeString : string) : W string :=
  if truthy rangeString then
    let range := rangeFromStringDefinition h rangeString 1 in
    emit (ReadRange filePath range) ;;;
    let fileContent := stripIndent h (getFileContentForRange h filePath range) in
    if truthy result
    then ret (result +:+ EOL h +:+ "..." +:+ EOL h +:+ EOL h +:+ fileContent)
    else ret fileContent
  else ret result.

(** [getCodeForFile]. *)
Definition getCodeForFile (h : Host) (this : ExportFactory)
    (filename lines : string) : W string :=
  let filename := if truthy filename then filename else EmptyString in
  let lines := if truthy lines then lines else EmptyString in
  let lineRanges := split "|" lines in
  let filePath := toAbsolutePath h (workspaceRoot this) filename in
  result <- foldW (appendRange h filePath) EmptyString lineRanges ;;
  ret (encode h result).

(** [row.toString()] of a grouping attribute.  The call throws on
    [undefined]; [groupResults] only makes it on a string (see
    [attribute_normalised]). *)
Definition toString (o : option string) : string :=
  match o with
  | Some s => s
  | None => EmptyString
  end.

(** The three assignments at the head of the callback of [groupResults]. *)
Definition normalise (row : CsvEntry) : CsvEntry :=
  let row := with_category (or_else (category row) "Other") row in
  with_lines (join "|" (sort sortLineSelections (split "|" (lines row)))) row.

(** The rest of the callback: [find] the group of the row and [push] the row
    to it, or [push] a new group. *)
Definition addRow (groupAttribute : GroupBy) (row : CsvEntry) (i : nat)
    (reviewExportData : list ReviewFileExportSection) : list ReviewFileExportSection :=
  match list_find (fun fileRef => Some (group fileRef) = attribute groupAttribute row)
                  reviewExportData with
  | Some (j, m) =>
      <[j := {| group := group m; section_lines := section_lines m ++ [i] |}]> reviewExportData
  | None =>
      reviewExportData ++
        [{| group := toString (attribute groupAttribute row); section_lines := [i] |}]
  end.

(** [groupResults].  The array [rows] holds one object per row; the objects
    are mutated in place, so the function gives back the array with every
    object in its new state, next to the groups. *)
Definition groupResults (rows : list CsvEntry) (groupAttribute : GroupBy)
    : list CsvEntry * list ReviewFileExportSection :=
  foldl (group_step normalise (addRow groupAttribute)) (rows, []) (seq 0 (length rows)).

(** The groups as the template sees them. *)
Definition resolve (store : list CsvEntry) (d : list ReviewFileExportSection)
    : list (string * list CsvEntry) :=
  map (fun s => (group s, deref store (section_lines s))) d.

(** The two lines every CSV handler shares: the shortened description and
    the title. *)
Definition descShort (row : CsvEntry) : string :=
  if Nat.ltb 100 (String.length (comment row))
  then substring0 100 (comment row) +:+ "..."
  else comment row.

Definition titleOf (row : CsvEntry) : string :=
  if otruthy (title row) then substring0 255 (tpl (title row)) else descShort row.

(** [includeCodeSelection ? (row.code = getCodeForFile(..)) : delete row.code]. *)
Definition setOrDeleteCode (h : Host) (this : ExportFactory) (row : CsvEntry) : W CsvEntry :=
  if includeCodeSelection this
  then c <- getCodeForFile h this (filename row) (lines row) ;; ret (with_code (Some c) row)
  else ret (with_code None row).

(** The description of the GitLab and GitHub handlers. *)
Definition markdownDescription (h : Host) (this : ExportFactory) (row : CsvEntry) : string :=
  let EOL := EOL h in
  let fileRow :=
    if otruthy (url row)
    then "- file: [" +:+ filename row +:+ "](" +:+ tpl (url row) +:+ ")" +:+ EOL
    else filename row +:+ EOL in
  let linesRow := "- lines: " +:+ lines row +:+ EOL in
  let shaRow := if otruthy (sha row) then "- SHA: " +:+ tpl (sha row) +:+ EOL +:+ EOL else EmptyString in
  let commentSection := "## Comment" +:+ EOL +:+ comment row +:+ EOL in
  let additional :=
    if otruthy (additional row)
    then "## Additional information" +:+ EOL +:+ tpl (additional row) +:+ EOL
    else EmptyString in
  let priority :=
    if otruthy (priority row)
    then "## Priority" +:+ EOL +:+ tplValue (priorityName h this (priority row)) +:+ EOL +:+ EOL
    else EmptyString in
  let category :=
    if otruthy (category row)
    then "## Category" +:+ EOL +:+ tpl (category row) +:+ EOL +:+ EOL
    else EmptyString in
  let code :=
    if otruthy (code row)
    then EOL +:+ "## Source Code" +:+ EOL +:+ EOL +:+ "```" +:+ EOL +:+ tpl (code row) +:+ "```" +:+ EOL
    else EmptyString in
  priority +:+ category +:+ "## Affected" +:+ EOL +:+ fileRow +:+ linesRow +:+ shaRow
    +:+ commentSection +:+ EOL +:+ additional +:+ code.

(** The description of the JIRA handler. *)
Definition jiraDescription (h : Host) (row : CsvEntry) : string :=
  let EOL := EOL h in
  let fileRow :=
    if otruthy (url row)
    then "* file: [" +:+ filename row +:+ "|" +:+ tpl (url row) +:+ "]" +:+ EOL
    else filename row +:+ EOL in
  let linesRow := "* lines: " +:+ lines row +:+ EOL in
  let shaRow := if otruthy (sha row) then "* SHA: " +:+ tpl (sha row) +:+ EOL +:+ EOL else EmptyString in
  let categorySection := "h2. Category" +:+ EOL +:+ tpl (category row) +:+ EOL +:+ EOL in
  let commentSection := "h2. Comment" +:+ EOL +:+ comment row +:+ EOL in
  let additional :=
    if otruthy (additional row)
    then "h2. Additional information" +:+ EOL +:+ tpl (additional row) +:+ EOL
    else EmptyString in
  let code :=
    if otruthy (code row)
    then EOL +:+ "h2. Source Code" +:+ EOL +:+ EOL +:+ "{code}" +:+ EOL +:+ tpl (code row) +:+ "{code}" +:+ EOL
    else EmptyString in
  "h2. Affected" +:+ EOL +:+ fileRow +:+ linesRow +:+ shaRow +:+ categorySection
    +:+ commentSection +:+ EOL +:+ additional +:+ code.

(** The span reads one call of [handleData] makes for a row: those of one
    call of [getCodeForFile] when code is included, none otherwise. *)
Definition readsOf (h : Host) (this : ExportFactory) (row : CsvEntry) : list Effect :=
  if includeCodeSelection this
  then effects (getCodeForFile h this (filename row) (lines row))
  else [].

(** The value of [code] a call of [handleData] leaves in a row. *)
Definition codeOf (h : Host) (this : ExportFactory) (format : ExportFormat) (row : CsvEntry)
    : option string :=
  if includeCodeSelection this
  then Some (value (getCodeForFile h this (filename row) (lines row)))
  else match format with
       | html => Some EmptyString
       | _ => None
       end.

(** A line of the output file: the columns, each between double quotes,
    separated by commas and closed by [EOL]. *)
Definition csvLine (h : Host) (columns : list string) : string :=
  join "," (map (fun c => dquote +:+ c +:+ dquote) columns) +:+ EOL h.

(** The columns the three CSV handlers write for a row. *)
Definition gitlabColumns (h : Host) (this : ExportFactory) (row : CsvEntry) : list string :=
  ["[code review] " +:+ titleOf row; markdownDescription h this row].

Definition githubColumns (h : Host) (this : ExportFactory) (row : CsvEntry) : list string :=
  ["[code review] " +:+ titleOf row; markdownDescription h this row;
   "code-review"; "open"; EmptyString].

Definition jiraColumns (h : Host) (this : ExportFactory) (row : CsvEntry) : list string :=
  ["[code review] " +:+ titleOf row; jiraDescription h row;
   tplValue (priorityName h this (priority row)); tpl (sha row); filename row; tpl (url row);
   lines row; tpl (title row); tpl (category row); comment row; tpl (additional row)].

(** [handleData] of the three CSV formats: escape the comment again, set or
    delete the code, append the line, return the row. *)
Definition handleDataCsv (h : Host) (this : ExportFactory)
    (columns : CsvEntry -> list string) (outputFile : string) (row : CsvEntry) : W CsvEntry :=
  let row := with_comment (escapeEndOfLineForCsv (comment row)) row in
  row <- setOrDeleteCode h this row ;;
  emit (AppendFile outputFile (csvLine h (columns row))) ;;;
  ret row.

(** [handleData] of the HTML format. *)
Definition handleDataHtml (h : Host) (this : ExportFactory)
    (outputFile : string) (row : CsvEntry) : W CsvEntry :=
  if includeCodeSelection this
  then c <- getCodeForFile h this (filename row) (lines row) ;; ret (with_code (Some c) row)
  else ret (with_code (Some EmptyString) row).

(** [handleData] of the JSON format. *)
Definition handleDataJson (h : Host) (this : ExportFactory)
    (outputFile : string) (row : CsvEntry) : W CsvEntry :=
  setOrDeleteCode h this row.

(** [group.lines.sort(sortCsvEntryForLines)]: the rows of a group are
    compared through the positions that stand for them. *)
Definition sortSection (h : Host) (store : list CsvEntry) (s : ReviewFileExportSection)
    : ReviewFileExportSection :=
  {| group := group s;
     section_lines :=
       sort (fun a b =>
               match store !! a, store !! b with
               | Some ra, Some rb => sortCsvEntryForLines h ra rb
               | _, _ => 0%Z
               end) (section_lines s) |}.

(** The data the HTML handler hands to the template: the groups of
    [groupResults], the rows of each group sorted when the grouping key is
    [filename]. *)
Definition htmlReviewExportData (h : Host) (this : ExportFactory) (rows : list CsvEntry)
    : list CsvEntry * list ReviewFileExportSection :=
  let '(store, reviewExportData) := groupResults rows (groupBy this) in
  match groupBy this with
  | Group_filename => (store, map (sortSection h store) reviewExportData)
  | Group_category => (store, reviewExportData)
  end.

(** [handleEnd] of the HTML format.  The result is the array [rows] as the
    handler leaves it. *)
Definition handleEndHtml (h : Host) (this : ExportFactory)
    (outputFile : string) (rows : list CsvEntry) (template : string) : W (list CsvEntry) :=
  emit (ReadFile template) ;;;
  let templateData := readFileSync h template in
  (if truthy templateData then ret tt
   else emit (ShowErrorMessage ("Error when reading the template file: '" +:+ template +:+ "'"))) ;;;
  let '(store, reviewExportData) := htmlReviewExportData h this rows in
  emit (WriteFile outputFile (Html templateData (resolve store reviewExportData))) ;;;
  emit (ShowInformationMessage ("Code review file: '" +:+ outputFile +:+ "' successfully created.")) ;;;
  emit (ShowPreview outputFile) ;;;
  ret store.

(** [handleEnd] of a CSV format: a message, and nothing else. *)
Definition handleEndCsv (kind : string) (outputFile : string) (rows : list CsvEntry)
    (template : string) : W (list CsvEntry) :=
  emit (ShowInformationMessage (kind +:+ " '" +:+ outputFile +:+ "' successfully created.")) ;;;
  ret rows.

(** [handleEnd] of the JSON format. *)
Definition handleEndJson (outputFile : string) (rows : list CsvEntry)
    (template : string) : W (list CsvEntry) :=
  emit (WriteFile outputFile (Json rows)) ;;;
  emit (ShowInformationMessage
          ("GitHub importable CSV file: '" +:+ outputFile +:+ "' successfully created.")) ;;;
  ret rows.

(** A format descriptor: an entry of [exportHandlerMap]. *)
Record ExportMap := {
  fileExtension : string;
  storeOutside : bool;
  writeFileHeader : string -> W unit;
  handleData : string -> CsvEntry -> W CsvEntry;
  handleEnd : string -> list CsvEntry -> string -> W (list CsvEntry)
}.

Definition exportHandlerMap (h : Host) (this : ExportFactory) (format : ExportFormat) : ExportMap :=
  match format with
  | html =>
      {| fileExtension := "html";
         storeOutside := true;
         writeFileHeader := fun _ => ret tt;
         handleData := handleDataHtml h this;
         handleEnd := handleEndHtml h this |}
  | gitlab =>
      {| fileExtension := "gitlab.csv";
         storeOutside := false;
         writeFileHeader := fun outputFile =>
           emit (WriteFile outputFile (Text ("title,description" +:+ EOL h)));
         handleData := handleDataCsv h this (gitlabColumns h this);
         handleEnd := handleEndCsv "GitLab importable CSV file:" |}
  | github =>
      {| fileExtension := "github.csv";
         storeOutside := false;
         writeFileHeader := fun outputFile =>
           emit (WriteFile outputFile (Text ("title,description,labels,state,assignee" +:+ EOL h)));
         handleData := handleDataCsv h this (githubColumns h this);
         handleEnd := handleEndCsv "GitHub importable CSV file:" |}
  | jira =>
      {| fileExtension := "jira.csv";
         storeOutside := false;
         writeFileHeader := fun outputFile =>
           emit (WriteFile outputFile
                   (Text ("Summary,Description,Priority,sha,filename,url,lines,title,category,comment,additional"
                          +:+ EOL h)));
         handleData := handleDataCsv h this (jiraColumns h this);
         handleEnd := handleEndCsv "JIRA importable file:" |}
  | json =>
      {| fileExtension := "json";
         storeOutside := true;
         writeFileHeader := fun _ => ret tt;
         handleData := handleDataJson h this;
         handleEnd := handleEndJson |}
  end.

(** The [data] callback of [exportForFormat] on one parsed row.  The row is
    one object: [tmp], the element pushed to [data] and the argument of the
    second call of [handleData] are the same object, so the state the
    callback leaves it in is the state of the element of [data]. *)
Definition onData (exporter : ExportMap) (outputFile : string) (row : CsvEntry) : W CsvEntry :=
  let row := with_comment (unescapeEndOfLineFromCsv (comment row)) row in
  row <- (if storeOutside exporter then handleData exporter outputFile row else ret row) ;;
  handleData exporter outputFile row.

(** [exportForFormat] on the rows the parser delivers.  The result is the
    row objects in the state the export leaves them in.  A streamed format
    hands no array of rows to [handleEnd]. *)
Definition exportForFormat (h : Host) (this : ExportFactory) (format : ExportFormat)
    (template : string) (parsed : list CsvEntry) : W (list CsvEntry) :=
  let exporter := exportHandlerMap h this format in
  let outputFile := basePath h this +:+ "." +:+ fileExtension exporter in
  writeFileHeader exporter outputFile ;;;
  data <- mapW (onData exporter outputFile) parsed ;;
  if storeOutside exporter
  then handleEnd exporter outputFile data template
  else handleEnd exporter outputFile [] template ;;; ret data.

(** The output file of a format, as [exportForFormat] names it. *)
Definition outputFileOf (h : Host) (this : ExportFactory) (format : ExportFormat) : string :=
  basePath h this +:+ "." +:+ fileExtension (exportHandlerMap h this format).

(** The columns a streamed format writes for a row (none for the buffered
    formats, which write no line). *)
Definition columnsOf (h : Host) (this : ExportFactory) (format : ExportFormat)
    : CsvEntry -> list string :=
  match format with
  | gitlab => gitlabColumns h this
  | github => githubColumns h this
  | jira => jiraColumns h this
  | html | json => fun _ => []
  end.

(** The arguments [getFilesContainingComments] constructs a
    [CommentListEntry] with, for one group: the label, the two texts made of
    the number of rows, and the group itself.  (The class is declared
    outside the sources; the collapsible state, the command and the icon are
    the same for every entry and are left out.) *)
Record FileListEntry := {
  label : string;
  description : string;
  tooltip : string;
  data : ReviewFileExportSection
}.

(** [getFilesContainingComments], on whether the input file exists, what
    [generator.check()] answers, and the rows the parser delivers (pushed to
    [entries] as they are).  The result is the array the promise resolves
    to, next to the row objects as grouping leaves them. *)
Definition getFilesContainingComments (existsSync check : bool) (entries : list CsvEntry)
    : list CsvEntry * list FileListEntry :=
  if negb existsSync || negb check then (entries, [])
  else
    let '(store, sortedByFile) := groupResults entries Group_filename in
    (store,
     map (fun el =>
            {| label := group el;
               description := "(" +:+ string_of_nat (length (section_lines el)) +:+ ")";
               tooltip := string_of_nat (length (section_lines el)) +:+ " comments";
               data := el |})
         sortedByFile).

End HandlerMap.

(** ** The per-format implementation (src/unnamed/part_000)

    Here a callback that throws (a [TypeError] on a range token without a
    dash) gives [None]; the text a callback appends to the output file is
    returned next to the row. *)

Module PerFormat.
Import JS.

(** What the class takes from outside: [os.EOL], the helpers of
    utils/workspace-util and the numbers [Number] makes of strings. *)
Record Host := {
  EOL : string;
  toAbsolutePath : string -> string -> string;
  removeLeadingSlash : string -> string;
  number : Type;
  Number : string -> number;
  getFileContentForRange : string -> number -> number -> string
}.

Record ExportFactory := {
  workspaceRoot : string;
  defaultFileName : string;
  groupBy : GroupBy;
  includeCodeSelection : bool
}.

(** A group holds the value of the grouping attribute as it is, and the
    positions of its rows ([lines] in the source) in the array
    [groupResults] was called on. *)
Record ReviewFileExportSection := {
  group : option string;
  section_lines : list nat
}.

(** [priorityName]: a [switch] over the strings 1, 2 and 3. *)
Definition priorityName (priority : option string) : string :=
  match priority with
  | Some p =>
      if String.eqb p "1" then "low"
      else if String.eqb p "2" then "medium"
      else if String.eqb p "3" then "high"
      else "none"
  | None => "none"
  end.

Definition separator (h : Host) : string :=
  EOL h +:+ "..." +:+ EOL h +:+ EOL h.

(** Has the token a part after a dash?  Without one, [end] is [undefined]
    and [end.split] throws. *)
Definition hasEnd (range : string) : bool :=
  match split "-" range with
  | _ :: _ :: _ => true
  | _ => false
  end.

(** The text of one span as [getCodeForFile] reads it, for a token with a
    part after the dash. *)
Definition spanText (h : Host) (this : ExportFactory) (filename range : string) : string :=
  getFileContentForRange h
    (toAbsolutePath h (workspaceRoot this) (removeLeadingSlash h filename))
    (Number h (hd EmptyString (split ":" (nth 0 (split "-" range) EmptyString))))
    (Number h (hd EmptyString (split ":" (nth 1 (split "-" range) EmptyString)))).

(** The callback of [lineRanges.forEach] in [getCodeForFile]: the new value
    of [result], or [None] when the callback throws (or a callback before it
    has thrown).  Only the lines of a token are used. *)
Definition appendRange (h : Host) (filePath : string) (acc : option string) (range : string)
    : option string :=
  match acc with
  | None => None
  | Some result =>
      match split "-" range with
      | start :: end_ :: _ =>
          let startLine := hd EmptyString (split ":" start) in
          let endLine := hd EmptyString (split ":" end_) in
          let fileContent :=
            getFileContentForRange h filePath (Number h startLine) (Number h endLine) in
          if truthy result
          then Some (result +:+ EOL h +:+ "..." +:+ EOL h +:+ EOL h +:+ fileContent)
          else Some fileContent
      | _ => None
      end
  end.

(** [getCodeForFile]. *)
Definition getCodeForFile (h : Host) (this : ExportFactory)
    (filename lines : string) : option string :=
  let lineRanges := split "|" lines in
  let filePath := toAbsolutePath h (workspaceRoot this) (removeLeadingSlash h filename) in
  foldl (appendRange h filePath) (Some EmptyString) lineRanges.

(** The two assignments at the head of the callback of [groupResults]. *)
Definition normalise (row : CsvEntry) : CsvEntry :=
  let row := with_priority (Some (priorityName (priority row))) row in
  with_category (or_else (category row) "Other") row.

Definition addRow (groupAttribute : GroupBy) (row : CsvEntry) (i : nat)
    (reviewExportData : list ReviewFileExportSection) : list ReviewFileExportSection :=
  match list_find (fun fileRef => group fileRef = attribute groupAttribute row)
                  reviewExportData with
  | Some (j, m) =>
      <[j := {| group := group m; section_lines := section_lines m ++ [i] |}]> reviewExportData
  | None =>
      reviewExportData ++
        [{| group := attribute groupAttribute row; section_lines := [i] |}]
  end.

(** [groupResults], on an array of row objects that are mutated in place. *)
Definition groupResults (rows : list CsvEntry) (groupAttribute : GroupBy)
    : list CsvEntry * list ReviewFileExportSection :=
  foldl (group_step normalise (addRow groupAttribute)) (rows, []) (seq 0 (length rows)).

Definition descShort (row : CsvEntry) : string :=
  if Nat.ltb 100 (String.length (comment row))
  then substring0 100 (comment row) +:+ "..."
  else comment row.

Definition titleOf (row : CsvEntry) : string :=
  if otruthy (title row) then substring0 255 (tpl (title row)) else descShort row.

(** [includeCodeSelection ? (row.code = getCodeForFile(..)) : delete row.code]. *)
Definition setOrDeleteCode (h : Host) (this : ExportFactory) (row : CsvEntry) : option CsvEntry :=
  if includeCodeSelection this
  then match getCodeForFile h this (filename row) (lines row) with
       | Some c => Some (with_code (Some c) row)
       | None => None
       end
  else Some (with_code None row).

Definition markdownDescription (h : Host) (row : CsvEntry) : string :=
  let EOL := EOL h in
  let fileRow :=
    if otruthy (url row)
    then "- file: [" +:+ filename row +:+ "](" +:+ tpl (url row) +:+ ")" +:+ EOL
    else filename row +:+ EOL in
  let linesRow := "- lines: " +:+ lines row +:+ EOL in
  let shaRow := if otruthy (sha row) then "- SHA: " +:+ tpl (sha row) +:+ EOL +:+ EOL else EmptyString in
  let commentSection := "## Comment" +:+ EOL +:+ comment row +:+ EOL in
  let additional :=
    if otruthy (additional row)
    then "## Additional information" +:+ EOL +:+ tpl (additional row) +:+ EOL
    else EmptyString in
  let priority :=
    if otruthy (priority row)
    then "## Priority" +:+ EOL +:+ priorityName (priority row) +:+ EOL +:+ EOL
    else EmptyString in
  let category :=
    if otruthy (category row)
    then "## Category" +:+ EOL +:+ tpl (category row) +:+ EOL +:+ EOL
    else EmptyString in
  let code :=
    if otruthy (code row)
    then EOL +:+ "## Source Code" +:+ EOL +:+ EOL +:+ "```" +:+ EOL +:+ tpl (code row) +:+ "```" +:+ EOL
    else EmptyString in
  priority +:+ category +:+ "## Affected" +:+ EOL +:+ fileRow +:+ linesRow +:+ shaRow
    +:+ commentSection +:+ EOL +:+ additional +:+ code.

Definition jiraDescription (h : Host) (row : CsvEntry) : string :=
  let EOL := EOL h in
  let fileRow :=
    if otruthy (url row)
    then "* file: [" +:+ filename row +:+ "|" +:+ tpl (url row) +:+ "]" +:+ EOL
    else filename row +:+ EOL in
  let linesRow := "* lines: " +:+ lines row +:+ EOL in
  let shaRow := if otruthy (sha row) then "* SHA: " +:+ tpl (sha row) +:+ EOL +:+ EOL else EmptyString in
  let categorySection := "h2. Category" +:+ EOL +:+ tpl (category row) +:+ EOL +:+ EOL in
  let commentSection := "h2. Comment" +:+ EOL +:+ comment row +:+ EOL in
  let additional :=
    if otruthy (additional row)
    then "h2. Additional information" +:+ EOL +:+ tpl (additional row) +:+ EOL
    else EmptyString in
  let code :=
    if otruthy (code row)
    then EOL +:+ "h2. Source Code" +:+ EOL +:+ EOL +:+ "{code}" +:+ EOL +:+ tpl (code row) +:+ "{code}" +:+ EOL
    else EmptyString in
  "h2. Affected" +:+ EOL +:+ fileRow +:+ linesRow +:+ shaRow +:+ categorySection
    +:+ commentSection +:+ EOL +:+ additional +:+ code.

(** The [switch] of [exportAsJiraCsv]: JIRA priorities run the other way
    round. *)
Definition jiraPriority (row : CsvEntry) : Z :=
  match priority row with
  | Some p =>
      if String.eqb p "1" then 3
      else if String.eqb p "2" then 2
      else if String.eqb p "3" then 1
      else 3
  | None => 3
  end%Z.

(** A small integer interpolated in a template literal. *)
Definition string_of_Z (z : Z) : string := string_of_nat (Z.to_nat z).

Definition csvLine (h : Host) (columns : list string) : string :=
  join "," (map (fun c => dquote +:+ c +:+ dquote) columns) +:+ EOL h.

Definition gitlabColumns (h : Host) (row : CsvEntry) : list string :=
  ["[code review] " +:+ titleOf row; markdownDescription h row].

Definition githubColumns (h : Host) (row : CsvEntry) : list string :=
  ["[code review] " +:+ titleOf row; markdownDescription h row;
   "code-review"; "open"; EmptyString].

Definition jiraColumns (h : Host) (row : CsvEntry) : list string :=
  ["[code review] " +:+ titleOf row; jiraDescription h row;
   string_of_Z (jiraPriority row); tpl (sha row); filename row; tpl (url row);
   lines row; tpl (title row); tpl (category row); comment row; tpl (additional row)].

(** The [data] callback of the three CSV exports: the row as the callback
    leaves it, and the line it appends. *)
Definition onDataCsv (h : Host) (this : ExportFactory)
    (columns : CsvEntry -> list string) (row : CsvEntry) : option (CsvEntry * string) :=
  match setOrDeleteCode h this row with
  | Some row => Some (row, csvLine h (columns row))
  | None => None
  end.

Definition onDataGitLab (h : Host) (this : ExportFactory) := onDataCsv h this (gitlabColumns h).
Definition onDataGitHub (h : Host) (this : ExportFactory) := onDataCsv h this (githubColumns h).
Definition onDataJira (h : Host) (this : ExportFactory) := onDataCsv h this (jiraColumns h).

(** [exportAsJson]: the array handed to [JSON.stringify]. *)
Definition exportAsJson (h : Host) (this : ExportFactory) (parsed : list CsvEntry)
    : option (list CsvEntry) :=
  mapM (setOrDeleteCode h this) parsed.

(** [exportAsHtml]: the row objects and the groups handed to the template. *)
Definition exportAsHtml (h : Host) (this : ExportFactory) (parsed : list CsvEntry)
    : option (list CsvEntry * list ReviewFileExportSection) :=
  match mapM (fun row =>
                if includeCodeSelection this
                then match getCodeForFile h this (filename row) (lines row) with
                     | Some c => Some (with_code (Some c) row)
                     | None => None
                     end
                else Some (with_code (Some EmptyString) row)) parsed with
  | Some rows => Some (groupResults rows (groupBy this))
  | None => None
  end.

End PerFormat.

(** ** A small workspace for the examples

    One source file of four lines, hosts that read it, and a few rows. *)

Module Example.
Import JS WorkspaceUtil.

Definition fileLines : list string := ["alpha"; "beta"; "gamma"; "delta"].

(** The lines [first] to [last] of the file, counted from 1. *)
Definition linesOfFile (first last : Z) : string :=
  join LF (take (Z.to_nat last - (Z.to_nat first - 1)) (drop (Z.to_nat first - 1) fileLines)).

(** A range token read number by number. *)
Definition parseRange (token : string) (offset : Z) : Range :=
  match split "-" token with
  | start :: end_ :: _ =>
      {| startLine := number (nth 0 (split ":" start) EmptyString);
         startCol := number (nth 1 (split ":" start) EmptyString);
         endLine := number (nth 0 (split ":" end_) EmptyString);
         endCol := number (nth 1 (split ":" end_) EmptyString) |}
  | _ => {| startLine := 0; startCol := 0; endLine := 0; endCol := 0 |}
  end.

Definition hostA : HandlerMap.Host :=
  {| HandlerMap.EOL := LF;
     HandlerMap.toAbsolutePath := fun root name => root +:+ "/" +:+ name;
     HandlerMap.rangeFromStringDefinition := parseRange;
     HandlerMap.getFileContentForRange := fun _ r => linesOfFile (startLine r) (endLine r);
     HandlerMap.readFileSync := fun _ => "{{#each this}}{{/each}}";
     HandlerMap.stripIndent := fun s => s;
     HandlerMap.encode := fun s => s;
     HandlerMap.sortCsvEntryForLines := fun a b => sortLineSelections (lines a) (lines b);
     HandlerMap.prototypeProperty := fun name =>
       if String.eqb name "constructor" then Some "function Array() { [native code] }"
       else if String.eqb name "at" then Some "function at() { [native code] }"
       else None |}.

Definition hostB : PerFormat.Host :=
  {| PerFormat.EOL := LF;
     PerFormat.toAbsolutePath := fun root name => root +:+ "/" +:+ name;
     PerFormat.removeLeadingSlash := fun s => s;
     PerFormat.number := Z;
     PerFormat.Number := number;
     PerFormat.getFileContentForRange := fun _ first last => linesOfFile first last |}.

Definition defaultPriorities : list string := ["none"; "low"; "medium"; "high"].

Definition factoryA (g : GroupBy) (includeCode : bool) : HandlerMap.ExportFactory :=
  {| HandlerMap.workspaceRoot := "/ws";
     HandlerMap.defaultFileName := "code-review";
     HandlerMap.groupBy := g;
     HandlerMap.includeCodeSelection := includeCode;
     HandlerMap.priorities := defaultPriorities |}.

Definition factoryB (g : GroupBy) (includeCode : bool) : PerFormat.ExportFactory :=
  {| PerFormat.workspaceRoot := "/ws";
     PerFormat.defaultFileName := "code-review";
     PerFormat.groupBy := g;
     PerFormat.includeCodeSelection := includeCode |}.

(** A row with three range tokens recorded out of order. *)
Definition rowUnsorted : CsvEntry :=
  {| sha := Some "c0ffee"; filename := "a.ts"; url := None;
     lines := "23:4-45:2|12:3-15:6|18:1-19:40"; title := None;
     comment := "check this"; priority := Some "2"; category := Some "Bug";
     additional := None; code := None |}.

(** A row whose comment holds a stored line break and that has no category. *)
Definition rowEscaped : CsvEntry :=
  {| sha := None; filename := "a.ts"; url := None;
     lines := "1:0-2:0|3:0-4:0"; title := None;
     comment := "a\nb"; priority := Some "1"; category := None;
     additional := None; code := Some "stale" |}.

(** A row whose priority lies outside the configured labels. *)
Definition rowPriority7 : CsvEntry :=
  {| sha := None; filename := "b.ts"; url := None;
     lines := "2:0-2:5"; title := Some "Rename"; 
     comment := "hi"; priority := Some "7"; category := Some "Style";
     additional := None; code := None |}.

(** Ninety-nine characters. *)
Definition ys99 : string :=
  "yyyyyyyyyyyyyyyyyyyyyyyyyyyyyyyyyyyyyyyyyyyyyyyyyyyyyyyyyyyyyyyyyyyyyyyyyyyyyyyyyyyyyyyyyyyyyyyyyyy".

(** A row without a title whose comment is one hundred characters long and
    ends in a line break. *)
Definition rowLineBreak : CsvEntry :=
  {| sha := None; filename := "a.ts"; url := None;
     lines := "1:0-2:0"; title := None;
     comment := ys99 +:+ LF; priority := Some "3"; category := Some "Bug";
     additional := None; code := None |}.

End Example.

(** * Proofs *)

Import JS WorkspaceUtil Effects.

(** * Facts about the JavaScript primitives *)

Section StringFacts.

Lemma append_cons (c : ascii) (s t : string) : String c s +:+ t = String c (s +:+ t).
Proof. reflexivity. Qed.

Lemma append_nil_l (t : string) : EmptyString +:+ t = t.
Proof. reflexivity. Qed.

Lemma length_append (s t : string) :
  String.length (s +:+ t) = String.length s + String.length t.
Proof. induction s as [|c s IH]; [done | rewrite append_cons; simpl; by rewrite IH]. Qed.

Lemma append_assoc (s t u : string) : (s +:+ t) +:+ u = s +:+ t +:+ u.
Proof. induction s as [|c s IH]; [done | rewrite !append_cons; by rewrite IH]. Qed.

Lemma length_substring0 (n : nat) (s : string) :
  String.length (substring0 n s) = Nat.min n (String.length s).
Proof.
  unfold substring0. revert n.
  induction s as [|c s IH]; intros [|n]; simpl; try done.
  by rewrite IH.
Qed.

Lemma truthy_true (s : string) : truthy s = true ↔ s ≠ EmptyString.
Proof.
  unfold truthy. destruct s; simpl; split; try done.
Qed.

Lemma truthy_false (s : string) : truthy s = false ↔ s = EmptyString.
Proof. unfold truthy. destruct s; simpl; split; done. Qed.

Lemma truthy_append_l (s t : string) : truthy s = true -> truthy (s +:+ t) = true.
Proof. by destruct s. Qed.

End StringFacts.

Section SplitJoin.
Variable sep : ascii.

Lemma split_not_nil (s : string) : split sep s ≠ [].
Proof.
  induction s as [|c s IH]; simpl; [done |].
  destruct (Ascii.eqb c sep); [done |].
  by destruct (split sep s).
Qed.

Lemma split_pieces (s : string) : Forall (fun t => occurs sep t = false) (split sep s).
Proof.
  induction s as [|c s IH]; simpl.
  - by constructor.
  - destruct (Ascii.eqb c sep) eqn:Hc.
    + by constructor.
    + destruct (split sep s) as [|t ts].
      * constructor; [simpl; by rewrite Hc | done].
      * inversion IH; subst. constructor; [simpl; by rewrite Hc | done].
Qed.

Lemma split_piece_then_sep (t rest : string) :
  occurs sep t = false ->
  split sep (t +:+ String sep rest) = t :: split sep rest.
Proof.
  induction t as [|c t IH]; intros Hocc.
  - rewrite append_nil_l. simpl. by rewrite Ascii.eqb_refl.
  - simpl in Hocc. apply orb_false_iff in Hocc as [Hc Ht].
    rewrite append_cons. simpl. rewrite Hc, IH; done.
Qed.

Lemma split_one_piece (t : string) : occurs sep t = false -> split sep t = [t].
Proof.
  induction t as [|c t IH]; simpl; intros Hocc; [done |].
  apply orb_false_iff in Hocc as [Hc Ht].
  rewrite Hc, IH; done.
Qed.

Lemma split_join (l : list string) :
  l ≠ [] ->
  Forall (fun t => occurs sep t = false) l ->
  split sep (join (String sep EmptyString) l) = l.
Proof.
  induction l as [|t l IH]; [done |].
  intros _ Hall. inversion Hall as [|? ? Ht Hl]; subst.
  destruct l as [|t' l].
  - simpl. by apply split_one_piece.
  - change (join (String sep EmptyString) (t :: t' :: l))
      with (t +:+ String sep EmptyString +:+ join (String sep EmptyString) (t' :: l)).
    rewrite append_cons, append_nil_l.
    rewrite split_piece_then_sep by done.
    rewrite IH; done.
Qed.

End SplitJoin.

Section SortFacts.
Context {A : Type} (cmp : A -> A -> Z).

Lemma insert_sorted_perm (x : A) (l : list A) : insert_sorted cmp x l ≡ₚ x :: l.
Proof.
  induction l as [|y l IH]; simpl; [done |].
  destruct (cmp x y <=? 0)%Z; [done |].
  rewrite IH. apply Permutation_swap.
Qed.

Lemma sort_perm (l : list A) : sort cmp l ≡ₚ l.
Proof.
  induction l as [|x l IH]; simpl; [done |].
  fold (sort cmp l). by rewrite insert_sorted_perm, IH.
Qed.

Hypothesis cmp_total : forall a b, (cmp a b <= 0)%Z \/ (cmp b a <= 0)%Z.

Lemma insert_sorted_Sorted (x : A) (l : list A) :
  Sorted (fun a b => (cmp a b <= 0)%Z) l ->
  Sorted (fun a b => (cmp a b <= 0)%Z) (insert_sorted cmp x l).
Proof.
  induction 1 as [|y l Hs IH Hhd]; simpl.
  - by repeat constructor.
  - destruct (Z.leb_spec (cmp x y) 0) as [Hle | Hgt].
    + constructor; [by constructor | by constructor].
    + constructor; [done |].
      destruct l as [|z l]; simpl in *.
      * constructor. destruct (cmp_total x y); lia.
      * destruct (Z.leb_spec (cmp x z) 0); constructor.
        -- destruct (cmp_total x y); lia.
        -- by inversion Hhd.
Qed.

Lemma sort_Sorted (l : list A) : Sorted (fun a b => (cmp a b <= 0)%Z) (sort cmp l).
Proof.
  induction l as [|x l IH]; simpl; [constructor |].
  by apply insert_sorted_Sorted.
Qed.

End SortFacts.

(** * Grouping *)

Section GroupFold.
Context {S : Type}.
Variable norm : CsvEntry -> CsvEntry.
Variable add : CsvEntry -> nat -> list S -> list S.
Variable sl : S -> list nat.
Hypothesis add_perm : forall row i d,
  concat (sl <$> add row i d) ≡ₚ concat (sl <$> d) ++ [i].

Lemma group_fold (rows pre : list CsvEntry) (d : list S) :
  (foldl (group_step norm add) (pre ++ rows, d) (seq (length pre) (length rows))).1
    = pre ++ (norm <$> rows)
  /\ concat (sl <$> (foldl (group_step norm add) (pre ++ rows, d) (seq (length pre) (length rows))).2)
       ≡ₚ concat (sl <$> d) ++ seq (length pre) (length rows).
Proof.
  revert pre d. induction rows as [|r rows IH]; intros pre d.
  - simpl. by rewrite !app_nil_r.
  - cbn [length seq foldl]. unfold group_step at 2 4.
    rewrite list_lookup_middle by done. cbn zeta.
    replace (<[length pre := norm r]> (pre ++ r :: rows))
      with ((pre ++ [norm r]) ++ rows).
    2:{ rewrite insert_app_r_alt by lia. rewrite Nat.sub_diag. simpl.
        by rewrite <- app_assoc. }
    replace (Datatypes.S (length pre)) with (length (pre ++ [norm r])).
    2:{ rewrite length_app. simpl. lia. }
    destruct (IH (pre ++ [norm r]) (add (norm r) (length pre) d)) as [H1 H2].
    split.
    + rewrite H1. rewrite fmap_cons. by rewrite <- app_assoc.
    + rewrite H2. rewrite add_perm. rewrite <- app_assoc. simpl.
      rewrite length_app. simpl. by rewrite Nat.add_1_r.
Qed.

End GroupFold.

Lemma insert_section_perm {S : Type} (sl : S -> list nat) (d : list S) (j i : nat) (m m' : S) :
  d !! j = Some m ->
  sl m' = sl m ++ [i] ->
  concat (sl <$> <[j := m']> d) ≡ₚ concat (sl <$> d) ++ [i].
Proof.
  intros Hj Hm'.
  rewrite insert_take_drop by (by eapply lookup_lt_Some).
  rewrite <- (take_drop_middle d j m Hj) at 3.
  rewrite !fmap_app, !fmap_cons, !concat_app, !concat_cons, Hm'.
  rewrite <- !app_assoc. apply Permutation_app_head.
  apply Permutation_app_head. apply Permutation_app_comm.
Qed.

Lemma addRowA_perm g row i d :
  concat (HandlerMap.section_lines <$> HandlerMap.addRow g row i d)
    ≡ₚ concat (HandlerMap.section_lines <$> d) ++ [i].
Proof.
  unfold HandlerMap.addRow.
  destruct (list_find _ d) as [[j m]|] eqn:Hfind.
  - apply list_find_Some in Hfind as (Hj & _ & _).
    by eapply insert_section_perm.
  - rewrite fmap_app, concat_app. simpl. done.
Qed.

Lemma addRowB_perm g row i d :
  concat (PerFormat.section_lines <$> PerFormat.addRow g row i d)
    ≡ₚ concat (PerFormat.section_lines <$> d) ++ [i].
Proof.
  unfold PerFormat.addRow.
  destruct (list_find _ d) as [[j m]|] eqn:Hfind.
  - apply list_find_Some in Hfind as (Hj & _ & _).
    by eapply insert_section_perm.
  - rewrite fmap_app, concat_app. simpl. done.
Qed.

Lemma groupResultsA_store rows g :
  (HandlerMap.groupResults rows g).1 = HandlerMap.normalise <$> rows.
Proof.
  pose proof (group_fold HandlerMap.normalise (HandlerMap.addRow g)
                HandlerMap.section_lines (addRowA_perm g) rows [] []) as [H _].
  exact H.
Qed.

Lemma groupResultsA_positions rows g :
  concat (HandlerMap.section_lines <$> (HandlerMap.groupResults rows g).2)
    ≡ₚ seq 0 (length rows).
Proof.
  pose proof (group_fold HandlerMap.normalise (HandlerMap.addRow g)
                HandlerMap.section_lines (addRowA_perm g) rows [] []) as [_ H].
  exact H.
Qed.

Lemma groupResultsB_store rows g :
  (PerFormat.groupResults rows g).1 = PerFormat.normalise <$> rows.
Proof.
  pose proof (group_fold PerFormat.normalise (PerFormat.addRow g)
                PerFormat.section_lines (addRowB_perm g) rows [] []) as [H _].
  exact H.
Qed.

Lemma groupResultsB_positions rows g :
  concat (PerFormat.section_lines <$> (PerFormat.groupResults rows g).2)
    ≡ₚ seq 0 (length rows).
Proof.
  pose proof (group_fold PerFormat.normalise (PerFormat.addRow g)
                PerFormat.section_lines (addRowB_perm g) rows [] []) as [_ H].
  exact H.
Qed.

Lemma deref_seq (pre store : list CsvEntry) :
  deref (pre ++ store) (seq (length pre) (length store)) = store.
Proof.
  revert pre. induction store as [|r store IH]; intros pre; [done |].
  simpl. unfold deref. simpl. rewrite list_lookup_middle by done. simpl.
  f_equal. specialize (IH (pre ++ [r])). rewrite length_app in IH. simpl in IH.
  rewrite Nat.add_1_r, <- app_assoc in IH. exact IH.
Qed.

Lemma deref_perm (store : list CsvEntry) (l1 l2 : list nat) :
  l1 ≡ₚ l2 -> deref store l1 ≡ₚ deref store l2.
Proof.
  unfold deref. induction 1 as [|i l1 l2 _ IH|i j l|l1 l2 l3 _ IH1 _ IH2]; simpl.
  - done.
  - destruct (store !! i); simpl; by rewrite IH.
  - destruct (store !! i), (store !! j); simpl; try done. apply Permutation_swap.
  - by rewrite IH1.
Qed.

Lemma deref_all (store : list CsvEntry) : deref store (seq 0 (length store)) = store.
Proof. exact (deref_seq [] store). Qed.

(** * The record of effects *)

Lemma value_bind {A B} (m : W A) (k : A -> W B) : value (bind m k) = value (k (value m)).
Proof. destruct m as [a e]. unfold bind, value. simpl. by destruct (k a). Qed.

Lemma effects_bind {A B} (m : W A) (k : A -> W B) :
  effects (bind m k) = effects m ++ effects (k (value m)).
Proof. destruct m as [a e]. unfold bind, value, effects. simpl. by destruct (k a). Qed.

Lemma value_mapW {A B} (f : A -> W B) (l : list A) :
  value (mapW f l) = (fun x => value (f x)) <$> l.
Proof.
  induction l as [|x l IH]; [done |].
  cbn [mapW]. rewrite value_bind. cbn beta. rewrite value_bind. cbn beta.
  unfold ret, value at 1. simpl fst. by rewrite IH.
Qed.

Lemma effects_mapW {A B} (f : A -> W B) (l : list A) :
  effects (mapW f l) = concat ((fun x => effects (f x)) <$> l).
Proof.
  induction l as [|x l IH]; [done |].
  cbn [mapW]. rewrite effects_bind. cbn beta. rewrite effects_bind. cbn beta.
  unfold ret, effects at 3. simpl snd. by rewrite app_nil_r, IH.
Qed.

(** * Joining the texts of the spans *)

Section JoinSpans.
Variable sep : string.

Lemma join_cons2 (x y : string) (l : list string) :
  join sep (x :: y :: l) = x +:+ sep +:+ join sep (y :: l).
Proof. reflexivity. Qed.

Lemma fold_appendSpan_from (result : string) (texts : list string) :
  truthy result = true ->
  foldl (appendSpan sep) result texts = join sep (result :: texts).
Proof.
  revert result. induction texts as [|t texts IH]; intros result Hres; [done |].
  simpl. unfold appendSpan at 2. rewrite Hres.
  rewrite IH by (by apply truthy_append_l).
  destruct texts as [|t' texts].
  - done.
  - rewrite !join_cons2. by rewrite !append_assoc.
Qed.

Lemma fold_appendSpan (texts : list string) :
  foldl (appendSpan sep) EmptyString texts = join sep (dropEmpty texts).
Proof.
  induction texts as [|t texts IH]; [done |].
  simpl. unfold appendSpan at 2. simpl.
  destruct (truthy t) eqn:Ht.
  - by apply fold_appendSpan_from.
  - apply truthy_false in Ht. subst t. exact IH.
Qed.

End JoinSpans.

(** * getCodeForFile *)

Section CodeForFileA.
Variable h : HandlerMap.Host.
Variable this : HandlerMap.ExportFactory.

Lemma separator_append_A (result fileContent : string) :
  result +:+ HandlerMap.EOL h +:+ "..." +:+ HandlerMap.EOL h +:+ HandlerMap.EOL h +:+ fileContent
  = result +:+ HandlerMap.separator h +:+ fileContent.
Proof. unfold HandlerMap.separator. by rewrite !append_assoc. Qed.

Lemma foldW_appendRange_value (filePath result : string) (l : list string) :
  value (foldW (HandlerMap.appendRange h filePath) result l)
  = foldl (appendSpan (HandlerMap.separator h)) result
      ((fun t => HandlerMap.stripIndent h
                   (HandlerMap.getFileContentForRange h filePath
                      (HandlerMap.rangeFromStringDefinition h t 1)))
         <$> filter (fun t => truthy t = true) l).
Proof.
  revert result. induction l as [|t l IH]; intros result; [done |].
  cbn [foldW]. rewrite value_bind. cbn beta. rewrite IH.
  rewrite filter_cons. unfold HandlerMap.appendRange at 1.
  destruct (truthy t) eqn:Ht.
  - rewrite decide_True by done. rewrite fmap_cons. cbn [foldl]. f_equal.
    rewrite value_bind. cbn beta.
    unfold appendSpan.
    destruct (truthy result); unfold ret, value; simpl fst; [|done].
    by rewrite separator_append_A.
  - by rewrite decide_False by done.
Qed.

Lemma foldW_appendRange_effects (filePath result : string) (l : list string) :
  effects (foldW (HandlerMap.appendRange h filePath) result l)
  = (fun t => ReadRange filePath (HandlerMap.rangeFromStringDefinition h t 1))
      <$> filter (fun t => truthy t = true) l.
Proof.
  revert result. induction l as [|t l IH]; intros result; [done |].
  cbn [foldW]. rewrite effects_bind. cbn beta. rewrite IH.
  rewrite filter_cons. unfold HandlerMap.appendRange at 1.
  destruct (truthy t) eqn:Ht.
  - rewrite decide_True by done. rewrite fmap_cons.
    rewrite effects_bind. cbn beta. unfold emit, effects at 1. simpl snd.
    by destruct (truthy result).
  - by rewrite decide_False by done.
Qed.

Lemma getCodeForFileA_value (filename lines : string) :
  value (HandlerMap.getCodeForFile h this filename lines)
  = HandlerMap.encode h
      (join (HandlerMap.separator h)
         (dropEmpty (HandlerMap.spanText h this filename <$> HandlerMap.rangeStrings lines))).
Proof.
  unfold HandlerMap.getCodeForFile, HandlerMap.rangeStrings.
  rewrite value_bind. unfold ret, value at 1. simpl fst. f_equal.
  rewrite foldW_appendRange_value. by rewrite fold_appendSpan.
Qed.

Lemma getCodeForFileA_effects (filename lines : string) :
  effects (HandlerMap.getCodeForFile h this filename lines)
  = (fun t => ReadRange
       (HandlerMap.toAbsolutePath h (HandlerMap.workspaceRoot this)
          (if truthy filename then filename else EmptyString))
       (HandlerMap.rangeFromStringDefinition h t 1)) <$> HandlerMap.rangeStrings lines.
Proof.
  unfold HandlerMap.getCodeForFile, HandlerMap.rangeStrings.
  rewrite effects_bind. unfold ret at 1. unfold effects at 2. simpl snd. rewrite app_nil_r.
  by rewrite foldW_appendRange_effects.
Qed.

End CodeForFileA.

Section CodeForFileB.
Variable h : PerFormat.Host.
Variable this : PerFormat.ExportFactory.

Lemma fold_appendRangeB_None (filePath : string) (l : list string) :
  foldl (PerFormat.appendRange h filePath) None l = None.
Proof. induction l; [done | simpl; done]. Qed.

Lemma fold_appendRangeB (filePath result : string) (l : list string) :
  foldl (PerFormat.appendRange h filePath) (Some result) l
  = if forallb PerFormat.hasEnd l
    then Some (foldl (appendSpan (PerFormat.separator h)) result
                 ((fun range =>
                     PerFormat.getFileContentForRange h filePath
                       (PerFormat.Number h (hd EmptyString (split ":" (nth 0 (split "-" range) EmptyString))))
                       (PerFormat.Number h (hd EmptyString (split ":" (nth 1 (split "-" range) EmptyString)))))
                    <$> l))
    else None.
Proof.
  revert result. induction l as [|t l IH]; intros result; [done |].
  cbn [foldl forallb fmap list_fmap]. unfold PerFormat.hasEnd at 1.
  unfold PerFormat.appendRange at 2.
  destruct (split "-" t) as [|start [|end_ rest]].
  - by rewrite fold_appendRangeB_None.
  - by rewrite fold_appendRangeB_None.
  - cbn [nth andb]. unfold appendSpan at 2, PerFormat.separator at 2.
    destruct (truthy result) eqn:Hres; rewrite IH; [|done].
    by rewrite !append_assoc.
Qed.

Lemma getCodeForFileB_value (filename lines : string) :
  PerFormat.getCodeForFile h this filename lines
  = if forallb PerFormat.hasEnd (split "|" lines)
    then Some (join (PerFormat.separator h)
                 (dropEmpty (PerFormat.spanText h this filename <$> split "|" lines)))
    else None.
Proof.
  unfold PerFormat.getCodeForFile. rewrite fold_appendRangeB.
  by rewrite fold_appendSpan.
Qed.

End CodeForFileB.

(** * Escaping of line breaks *)




(** * Range tokens of a row *)

Lemma Sorted_weaken {A} (R1 R2 : A -> A -> Prop) (l : list A) :
  (forall a b, R1 a b -> R2 a b) -> Sorted R1 l -> Sorted R2 l.
Proof.
  intros Himp. induction 1 as [|x l Hs IH Hhd]; constructor; [done |].
  destruct Hhd; constructor. by apply Himp.
Qed.

Lemma sortLineSelections_le (a b : string) :
  (sortLineSelections a b <= 0)%Z <-> startsBeforeOrAt a b.
Proof.
  unfold sortLineSelections, startsBeforeOrAt.
  destruct (startOf a) as [la ca], (startOf b) as [lb cb]. simpl.
  destruct (Z.eqb_spec la lb); lia.
Qed.

Lemma sortLineSelections_total (a b : string) :
  (sortLineSelections a b <= 0)%Z \/ (sortLineSelections b a <= 0)%Z.
Proof.
  rewrite !sortLineSelections_le. unfold startsBeforeOrAt. lia.
Qed.

Lemma normaliseA_tokens (row : CsvEntry) :
  split "|" (lines (HandlerMap.normalise row))
  = sort sortLineSelections (split "|" (lines row)).
Proof.
  unfold HandlerMap.normalise. simpl.
  apply (split_join "|").
  - intros Hnil. apply (split_not_nil "|" (lines row)).
    apply Permutation_nil_r. rewrite <- Hnil. symmetry. apply sort_perm.
  - rewrite sort_perm. apply split_pieces.
Qed.

(** The grouping attribute of a row is a string once the row has gone
    through the head of the callback: [toString] is never called on
    [undefined]. *)
Lemma attribute_normalised (g : GroupBy) (row : CsvEntry) :
  is_Some (attribute g (HandlerMap.normalise row)).
Proof.
  destruct g; simpl; [by eexists |].
  unfold or_else. destruct (otruthy (category row)) eqn:Hc; [|by eexists].
  destruct (category row); [by eexists | done].
Qed.

Lemma htmlReviewExportData_store h this rows :
  (HandlerMap.htmlReviewExportData h this rows).1 = (HandlerMap.groupResults rows (HandlerMap.groupBy this)).1.
Proof.
  unfold HandlerMap.htmlReviewExportData.
  destruct (HandlerMap.groupResults rows (HandlerMap.groupBy this)) as [store d].
  by destruct (HandlerMap.groupBy this).
Qed.

Lemma htmlReviewExportData_sections h this rows :
  Forall2 (fun s s' => HandlerMap.group s' = HandlerMap.group s
                       /\ HandlerMap.section_lines s' ≡ₚ HandlerMap.section_lines s)
    (HandlerMap.groupResults rows (HandlerMap.groupBy this)).2
    (HandlerMap.htmlReviewExportData h this rows).2.
Proof.
  unfold HandlerMap.htmlReviewExportData.
  destruct (HandlerMap.groupResults rows (HandlerMap.groupBy this)) as [store d].
  destruct (HandlerMap.groupBy this); simpl.
  - apply Forall2_fmap_r. apply Forall_Forall2_diag, Forall_forall.
    intros s _. simpl. split; [done | apply sort_perm].
  - apply Forall_Forall2_diag, Forall_forall. by intros s _.
Qed.

(** C1 (as amended): in the handler-map implementation [groupResults] puts
    the range tokens of every row in ascending (startLine, startCol) order
    for every grouping key, [category] as well as [filename], and keeps the
    tokens themselves; the HTML handler keeps these rows and, whatever the
    key, only reorders the rows inside a group; in the per-format
    implementation [groupResults] leaves [lines] as it is for every key. *)
Theorem C1_tokens_sorted_for_every_key :
  forall (rows : list CsvEntry) (g : GroupBy),
    Forall2 (fun row row' =>
               split "|" (lines row') ≡ₚ split "|" (lines row)
               /\ Sorted startsBeforeOrAt (split "|" (lines row')))
            rows (HandlerMap.groupResults rows g).1
    /\ (forall h this,
          (HandlerMap.htmlReviewExportData h this rows).1
            = (HandlerMap.groupResults rows (HandlerMap.groupBy this)).1
          /\ Forall2 (fun s s' => HandlerMap.group s' = HandlerMap.group s
                        /\ HandlerMap.section_lines s' ≡ₚ HandlerMap.section_lines s)
               (HandlerMap.groupResults rows (HandlerMap.groupBy this)).2
               (HandlerMap.htmlReviewExportData h this rows).2)
    /\ Forall2 (fun row row' => lines row' = lines row)
               rows (PerFormat.groupResults rows g).1.
Proof.
  intros rows g. split; [|split].
  - rewrite groupResultsA_store. apply Forall2_fmap_r.
    apply Forall_Forall2_diag, Forall_forall. intros row _. unfold compose.
    rewrite normaliseA_tokens. split.
    + apply sort_perm.
    + eapply Sorted_weaken; [| apply sort_Sorted, sortLineSelections_total].
      intros a b. apply sortLineSelections_le.
  - intros h this. split.
    + apply htmlReviewExportData_store.
    + apply htmlReviewExportData_sections.
  - rewrite groupResultsB_store. apply Forall2_fmap_r.
    apply Forall_Forall2_diag, Forall_forall. by intros row _.
Qed.

(** C1 (as stated) fails: grouped by [category], the row still has its
    three range tokens re-sorted. *)
Lemma C1_counterexample :
  lines <$> (HandlerMap.groupResults [Example.rowUnsorted] Group_category).1
    = ["12:3-15:6|18:1-19:40|23:4-45:2"]
  /\ lines Example.rowUnsorted = "23:4-45:2|12:3-15:6|18:1-19:40"
  /\ lines <$> (HandlerMap.groupResults [Example.rowUnsorted] Group_category).1
       <> [lines Example.rowUnsorted].
Proof. split; [|split]; [reflexivity | reflexivity | discriminate]. Qed.

(** C2: grouping by [filename] keeps every row object exactly once, in both
    implementations: the positions held by the groups, taken group after
    group, are a permutation of the positions of the array; the array still
    holds one object per row (each in the state the callback left it in);
    and the rows the groups hold are, as a multiset, the rows of the
    array. *)
Theorem C2_grouping_keeps_every_row :
  forall rows : list CsvEntry,
    (concat (HandlerMap.section_lines <$> (HandlerMap.groupResults rows Group_filename).2)
       ≡ₚ seq 0 (length rows)
     /\ (HandlerMap.groupResults rows Group_filename).1 = HandlerMap.normalise <$> rows
     /\ deref (HandlerMap.groupResults rows Group_filename).1
          (concat (HandlerMap.section_lines <$> (HandlerMap.groupResults rows Group_filename).2))
        ≡ₚ (HandlerMap.groupResults rows Group_filename).1)
    /\ (concat (PerFormat.section_lines <$> (PerFormat.groupResults rows Group_filename).2)
          ≡ₚ seq 0 (length rows)
        /\ (PerFormat.groupResults rows Group_filename).1 = PerFormat.normalise <$> rows
        /\ deref (PerFormat.groupResults rows Group_filename).1
             (concat (PerFormat.section_lines <$> (PerFormat.groupResults rows Group_filename).2))
           ≡ₚ (PerFormat.groupResults rows Group_filename).1).
Proof.
  intros rows. split.
  - pose proof (groupResultsA_positions rows Group_filename) as Hpos.
    pose proof (groupResultsA_store rows Group_filename) as Hstore.
    split; [done | split].
    + done.
    + rewrite (deref_perm _ _ _ Hpos).
      replace (length rows) with (length (HandlerMap.groupResults rows Group_filename).1)
        by (by rewrite Hstore, length_fmap).
      by rewrite deref_all.
  - pose proof (groupResultsB_positions rows Group_filename) as Hpos.
    pose proof (groupResultsB_store rows Group_filename) as Hstore.
    split; [done | split].
    + done.
    + rewrite (deref_perm _ _ _ Hpos).
      replace (length rows) with (length (PerFormat.groupResults rows Group_filename).1)
        by (by rewrite Hstore, length_fmap).
      by rewrite deref_all.
Qed.

(** * The per-row transforms *)

Lemma otruthy_Some (o : option string) :
  otruthy o = true -> exists t, o = Some t /\ t <> EmptyString.
Proof.
  destruct o as [t|]; [|done]. simpl. intros Ht. exists t. split; [done |].
  by apply truthy_true.
Qed.

Lemma titleOfA_rule (row : CsvEntry) : TitleRule row (HandlerMap.titleOf row).
Proof.
  unfold HandlerMap.titleOf, HandlerMap.descShort.
  destruct (otruthy (title row)) eqn:Ht.
  - destruct (otruthy_Some _ Ht) as (t & Htitle & Hne). rewrite Htitle. simpl.
    by apply TitleGiven.
  - destruct (Nat.ltb_spec 100 (String.length (comment row))).
    + by apply TitleFromLongComment.
    + by apply TitleFromComment.
Qed.

Lemma titleOfB_rule (row : CsvEntry) : TitleRule row (PerFormat.titleOf row).
Proof.
  unfold PerFormat.titleOf, PerFormat.descShort.
  destruct (otruthy (title row)) eqn:Ht.
  - destruct (otruthy_Some _ Ht) as (t & Htitle & Hne). rewrite Htitle. simpl.
    by apply TitleGiven.
  - destruct (Nat.ltb_spec 100 (String.length (comment row))).
    + by apply TitleFromLongComment.
    + by apply TitleFromComment.
Qed.

Lemma TitleRule_length (row : CsvEntry) (t : string) :
  TitleRule row t ->
  (otruthy (title row) = true /\ String.length t <= 255)
  \/ (otruthy (title row) = false /\ 100 < String.length (comment row)
      /\ String.length t = 103)
  \/ (otruthy (title row) = false /\ t = comment row /\ String.length t <= 100).
Proof.
  intros [s Hs Hne | Hno Hlong | Hno Hshort].
  - left. split.
    + rewrite Hs. simpl. by apply truthy_true.
    + rewrite length_substring0. apply Nat.le_min_l.
  - right; left. repeat split; [done | done |].
    rewrite length_append, length_substring0.
    rewrite Nat.min_l by lia. reflexivity.
  - right; right. done.
Qed.

Lemma setOrDeleteCodeA (h : HandlerMap.Host) (this : HandlerMap.ExportFactory) (row : CsvEntry) :
  value (HandlerMap.setOrDeleteCode h this row)
  = with_code (if HandlerMap.includeCodeSelection this
               then Some (value (HandlerMap.getCodeForFile h this (filename row) (lines row)))
               else None) row
  /\ effects (HandlerMap.setOrDeleteCode h this row)
     = if HandlerMap.includeCodeSelection this
       then effects (HandlerMap.getCodeForFile h this (filename row) (lines row))
       else [].
Proof.
  unfold HandlerMap.setOrDeleteCode.
  destruct (HandlerMap.includeCodeSelection this); [|done].
  rewrite value_bind, effects_bind. cbn beta. unfold ret, value at 1, effects at 2.
  simpl. by rewrite app_nil_r.
Qed.

Lemma handleDataCsv_value h this columns outputFile row :
  value (HandlerMap.handleDataCsv h this columns outputFile row)
  = with_code (if HandlerMap.includeCodeSelection this
               then Some (value (HandlerMap.getCodeForFile h this (filename row) (lines row)))
               else None)
      (with_comment (escapeEndOfLineForCsv (comment row)) row).
Proof.
  unfold HandlerMap.handleDataCsv. rewrite value_bind. cbn beta.
  rewrite value_bind. cbn beta. unfold ret at 1, value at 1. simpl fst.
  by destruct (setOrDeleteCodeA h this (with_comment (escapeEndOfLineForCsv (comment row)) row))
    as [-> _].
Qed.

Lemma handleDataCsv_effects h this columns outputFile row :
  effects (HandlerMap.handleDataCsv h this columns outputFile row)
  = (if HandlerMap.includeCodeSelection this
     then effects (HandlerMap.getCodeForFile h this (filename row) (lines row))
     else [])
    ++ [AppendFile outputFile
          (HandlerMap.csvLine h
             (columns (value (HandlerMap.handleDataCsv h this columns outputFile row))))].
Proof.
  rewrite handleDataCsv_value.
  unfold HandlerMap.handleDataCsv. rewrite effects_bind. cbn beta.
  rewrite effects_bind. cbn beta. unfold ret at 1, emit, effects at 2 3. simpl snd.
  destruct (setOrDeleteCodeA h this (with_comment (escapeEndOfLineForCsv (comment row)) row))
    as [-> ->].
  done.
Qed.

Lemma handleDataHtml_value h this outputFile row :
  value (HandlerMap.handleDataHtml h this outputFile row)
  = with_code (if HandlerMap.includeCodeSelection this
               then Some (value (HandlerMap.getCodeForFile h this (filename row) (lines row)))
               else Some EmptyString) row.
Proof.
  unfold HandlerMap.handleDataHtml.
  destruct (HandlerMap.includeCodeSelection this); [|done].
  by rewrite value_bind.
Qed.

Lemma handleDataHtml_effects h this outputFile row :
  effects (HandlerMap.handleDataHtml h this outputFile row)
  = if HandlerMap.includeCodeSelection this
    then effects (HandlerMap.getCodeForFile h this (filename row) (lines row))
    else [].
Proof.
  unfold HandlerMap.handleDataHtml.
  destruct (HandlerMap.includeCodeSelection this); [|done].
  rewrite effects_bind. cbn beta. unfold ret, effects at 2. simpl. by rewrite app_nil_r.
Qed.

Lemma handleData_value h this format outputFile row :
  value (HandlerMap.handleData (HandlerMap.exportHandlerMap h this format) outputFile row)
  = with_code (HandlerMap.codeOf h this format row)
      (match format with
       | html | json => row
       | _ => with_comment (escapeEndOfLineForCsv (comment row)) row
       end).
Proof.
  unfold HandlerMap.codeOf.
  destruct format; simpl HandlerMap.handleData;
    rewrite ?handleDataCsv_value, ?handleDataHtml_value;
    try (by destruct (HandlerMap.includeCodeSelection this)).
  unfold HandlerMap.handleDataJson.
  by destruct (setOrDeleteCodeA h this row) as [-> _].
Qed.

Lemma handleData_reads h this format outputFile row :
  filter (fun e => is_ReadRange e = true)
    (effects (HandlerMap.handleData (HandlerMap.exportHandlerMap h this format) outputFile row))
  = if HandlerMap.includeCodeSelection this
    then effects (HandlerMap.getCodeForFile h this (filename row) (lines row))
    else [].
Proof.
  assert (forall f l, filter (fun e => is_ReadRange e = true)
            (effects (HandlerMap.getCodeForFile h this f l))
          = effects (HandlerMap.getCodeForFile h this f l)) as Hreads.
  { intros f l. rewrite getCodeForFileA_effects.
    induction (HandlerMap.rangeStrings l) as [|t ts IH]; [done |].
    rewrite fmap_cons, filter_cons. rewrite decide_True by done. by rewrite IH. }
  destruct format; simpl HandlerMap.handleData;
    rewrite ?handleDataCsv_effects, ?handleDataHtml_effects;
    rewrite ?filter_app; simpl filter at 1;
    try (destruct (HandlerMap.includeCodeSelection this);
         [rewrite ?Hreads; rewrite ?filter_cons, ?decide_False by done; by rewrite ?app_nil_r
         | done]).
  unfold HandlerMap.handleDataJson.
  destruct (setOrDeleteCodeA h this row) as [_ ->].
  destruct (HandlerMap.includeCodeSelection this); [apply Hreads | done].
Qed.

(** * The data callback and the whole export *)


Section DataCallback.
Variable h : HandlerMap.Host.
Variable this : HandlerMap.ExportFactory.

Lemma onData_unfold format outputFile row :
  HandlerMap.onData (HandlerMap.exportHandlerMap h this format) outputFile row
  = let exporter := HandlerMap.exportHandlerMap h this format in
    let row0 := with_comment (unescapeEndOfLineFromCsv (comment row)) row in
    if HandlerMap.storeOutside exporter
    then bind (HandlerMap.handleData exporter outputFile row0)
              (HandlerMap.handleData exporter outputFile)
    else HandlerMap.handleData exporter outputFile row0.
Proof.
  unfold HandlerMap.onData. cbn zeta.
  destruct (HandlerMap.storeOutside _); [done |].
  unfold bind, ret.
  by destruct (HandlerMap.handleData _ _ _).
Qed.

Lemma onData_value format outputFile row :
  value (HandlerMap.onData (HandlerMap.exportHandlerMap h this format) outputFile row)
  = with_code (HandlerMap.codeOf h this format row)
      (with_comment
         (match format with
          | html | json => unescapeEndOfLineFromCsv (comment row)
          | _ => escapeEndOfLineForCsv (unescapeEndOfLineFromCsv (comment row))
          end) row).
Proof.
  rewrite onData_unfold. cbn zeta.
  destruct format; simpl HandlerMap.storeOutside; cbn iota;
    rewrite ?value_bind, !handleData_value; reflexivity.
Qed.

Lemma onData_reads format outputFile row :
  filter (fun e => is_ReadRange e = true)
    (effects (HandlerMap.onData (HandlerMap.exportHandlerMap h this format) outputFile row))
  = if HandlerMap.storeOutside (HandlerMap.exportHandlerMap h this format)
    then HandlerMap.readsOf h this row ++ HandlerMap.readsOf h this row
    else HandlerMap.readsOf h this row.
Proof.
  rewrite onData_unfold. cbn zeta.
  destruct (HandlerMap.storeOutside _).
  - rewrite effects_bind, filter_app, !handleData_reads, handleData_value.
    by destruct format.
  - by rewrite handleData_reads.
Qed.

Lemma filter_concat {A} (P : A -> Prop) `{!forall x, Decision (P x)} (ls : list (list A)) :
  filter P (concat ls) = concat (filter P <$> ls).
Proof.
  induction ls as [|l ls IH]; [done |].
  simpl. by rewrite filter_app, IH.
Qed.

Lemma handleEnd_no_reads format outputFile rows template :
  filter (fun e => is_ReadRange e = true)
    (effects (HandlerMap.handleEnd (HandlerMap.exportHandlerMap h this format)
                outputFile rows template)) = [].
Proof.
  destruct format; simpl HandlerMap.handleEnd; try reflexivity.
  unfold HandlerMap.handleEndHtml.
  destruct (HandlerMap.htmlReviewExportData h this rows) as [store d].
  by destruct (truthy (HandlerMap.readFileSync h template)).
Qed.

Lemma handleEnd_value format outputFile rows template :
  value (HandlerMap.handleEnd (HandlerMap.exportHandlerMap h this format)
           outputFile rows template)
  = match format with
    | html => HandlerMap.normalise <$> rows
    | _ => rows
    end.
Proof.
  destruct format; simpl HandlerMap.handleEnd; try reflexivity.
  unfold HandlerMap.handleEndHtml.
  rewrite <- (groupResultsA_store rows (HandlerMap.groupBy this)).
  rewrite <- (htmlReviewExportData_store h this rows).
  destruct (HandlerMap.htmlReviewExportData h this rows) as [store d].
  by destruct (truthy (HandlerMap.readFileSync h template)).
Qed.

Lemma exportForFormat_value format template parsed :
  value (HandlerMap.exportForFormat h this format template parsed)
  = let data :=
      (fun row => value (HandlerMap.onData (HandlerMap.exportHandlerMap h this format)
                           (HandlerMap.basePath h this +:+ "." +:+
                              HandlerMap.fileExtension (HandlerMap.exportHandlerMap h this format)) row))
        <$> parsed in
    match format with
    | html => HandlerMap.normalise <$> data
    | _ => data
    end.
Proof.
  unfold HandlerMap.exportForFormat. cbn zeta.
  rewrite value_bind. cbn beta. rewrite value_bind. cbn beta.
  rewrite value_mapW.
  destruct (HandlerMap.storeOutside _) eqn:Hstore.
  - rewrite handleEnd_value. by destruct format.
  - rewrite value_bind. cbn beta. unfold ret, value at 1. simpl fst.
    by destruct format.
Qed.

Lemma exportForFormat_effects format template parsed :
  effects (HandlerMap.exportForFormat h this format template parsed)
  = let exporter := HandlerMap.exportHandlerMap h this format in
    let outputFile := HandlerMap.basePath h this +:+ "." +:+ HandlerMap.fileExtension exporter in
    let data := (fun row => value (HandlerMap.onData exporter outputFile row)) <$> parsed in
    effects (HandlerMap.writeFileHeader exporter outputFile)
    ++ concat ((fun row => effects (HandlerMap.onData exporter outputFile row)) <$> parsed)
    ++ effects (HandlerMap.handleEnd exporter outputFile
                  (if HandlerMap.storeOutside exporter then data else []) template).
Proof.
  unfold HandlerMap.exportForFormat. cbn zeta.
  rewrite effects_bind. cbn beta. rewrite effects_bind. cbn beta.
  rewrite effects_mapW, value_mapW.
  destruct (HandlerMap.storeOutside _) eqn:Hstore; [done |].
  rewrite effects_bind. cbn beta. unfold ret at 1, effects at 4. simpl snd.
  by rewrite app_nil_r.
Qed.

Lemma exportForFormat_reads format template parsed :
  filter (fun e => is_ReadRange e = true)
    (effects (HandlerMap.exportForFormat h this format template parsed))
  = concat ((fun row =>
               if HandlerMap.storeOutside (HandlerMap.exportHandlerMap h this format)
               then HandlerMap.readsOf h this row ++ HandlerMap.readsOf h this row
               else HandlerMap.readsOf h this row) <$> parsed).
Proof.
  rewrite exportForFormat_effects. cbn zeta.
  rewrite !filter_app, handleEnd_no_reads, app_nil_r.
  replace (filter _ (effects (HandlerMap.writeFileHeader _ _))) with (@nil Effect)
    by (by destruct format).
  rewrite app_nil_l, filter_concat, <- list_fmap_compose.
  f_equal. apply list_fmap_ext. intros _ row _. simpl. apply onData_reads.
Qed.

End DataCallback.

Lemma setOrDeleteCodeB (h : PerFormat.Host) (this : PerFormat.ExportFactory) (row : CsvEntry) :
  match PerFormat.setOrDeleteCode h this row with
  | Some row' => exists c, row' = with_code c row
                           /\ (PerFormat.includeCodeSelection this = false -> c = None)
  | None => PerFormat.includeCodeSelection this = true
            /\ forallb PerFormat.hasEnd (split "|" (lines row)) = false
  end.
Proof.
  unfold PerFormat.setOrDeleteCode.
  destruct (PerFormat.includeCodeSelection this) eqn:Hinc.
  - rewrite getCodeForFileB_value.
    destruct (forallb PerFormat.hasEnd (split "|" (lines row))); [|done].
    eexists. split; [done | done].
  - by exists None.
Qed.

Lemma onDataCsvB (h : PerFormat.Host) (this : PerFormat.ExportFactory)
    (columns : CsvEntry -> list string) (row : CsvEntry) :
  match PerFormat.onDataCsv h this columns row with
  | Some (row', line) =>
      line = PerFormat.csvLine h (columns row')
      /\ exists c, row' = with_code c row
  | None => PerFormat.includeCodeSelection this = true
            /\ forallb PerFormat.hasEnd (split "|" (lines row)) = false
  end.
Proof.
  unfold PerFormat.onDataCsv.
  pose proof (setOrDeleteCodeB h this row) as H.
  destruct (PerFormat.setOrDeleteCode h this row) as [row'|]; [|done].
  destruct H as (c & -> & _). split; [done | by exists c].
Qed.

(** Goals over the formats of a list, one format at a time. *)
Ltac each_format := repeat (apply Forall_cons_2; [| try apply Forall_nil_2]).

Lemma TitleRule_cases (row : CsvEntry) (t : string) :
  TitleRule row t ->
  (otruthy (title row) = true /\ String.length t <= 255)
  \/ (otruthy (title row) = false /\ 100 < String.length (comment row)
      /\ t = substring0 100 (comment row) +:+ "..."
      /\ String.length t = 103)
  \/ (otruthy (title row) = false /\ t = comment row /\ String.length t <= 100).
Proof.
  intros Hrule. destruct (TitleRule_length row t Hrule) as [H | [H | H]]; [by left | | by right; right].
  right; left. destruct H as (Hno & Hlong & Hlen). repeat split; try done.
  destruct Hrule as [s Hs Hne | _ _ | _ Hshort]; [| done | lia].
  rewrite Hs in Hno. simpl in Hno. by apply truthy_false in Hno.
Qed.

Lemma TitleRule_ext (row row' : CsvEntry) (t : string) :
  title row' = title row -> comment row' = comment row -> TitleRule row t -> TitleRule row' t.
Proof.
  intros Ht Hc [s Hs Hne | Hno Hlong | Hno Hshort]; rewrite <- ?Hc.
  - apply TitleGiven; [by rewrite Ht | done].
  - apply TitleFromLongComment; [by rewrite Ht | by rewrite Hc].
  - apply TitleFromComment; [by rewrite Ht | by rewrite Hc].
Qed.

(** C3 (as amended): every CSV renderer of both implementations writes one
    line for a row, whose first column is the prefix [[code review] ] and a
    title that follows the title rule for the comment as the renderer holds
    it: the title of the row cut to at most 255 characters when there is
    one, otherwise the first 100 characters of that comment and an ellipsis
    (103 characters) when it has more than 100, otherwise that comment.  In
    the handler-map implementation that comment is the comment of the row
    after the handler's own [escapeEndOfLineForCsv]; in the per-format
    implementation it is the comment of the row. *)
Theorem C3_csv_title :
  forall (hA : HandlerMap.Host) (thisA : HandlerMap.ExportFactory)
         (hB : PerFormat.Host) (thisB : PerFormat.ExportFactory)
         (outputFile : string) (row : CsvEntry),
    Forall (fun format =>
              let run := HandlerMap.handleData (HandlerMap.exportHandlerMap hA thisA format)
                           outputFile row in
              let held := escapeEndOfLineForCsv (comment row) in
              exists t : string,
                effects run
                = HandlerMap.readsOf hA thisA row
                  ++ [AppendFile outputFile
                        (HandlerMap.csvLine hA (HandlerMap.columnsOf hA thisA format (value run)))]
                /\ HandlerMap.columnsOf hA thisA format (value run) !! 0
                   = Some ("[code review] " +:+ t)
                /\ title (value run) = title row
                /\ comment (value run) = held
                /\ TitleRule (with_comment held row) t
                /\ ((otruthy (title row) = true /\ String.length t <= 255)
                    \/ (otruthy (title row) = false
                        /\ 100 < String.length held
                        /\ t = substring0 100 held +:+ "..."
                        /\ String.length t = 103)
                    \/ (otruthy (title row) = false /\ t = held
                        /\ String.length t <= 100)))
           [gitlab; github; jira]
    /\ Forall (fun '(onData, columns) =>
                 match (onData : PerFormat.Host -> PerFormat.ExportFactory -> CsvEntry
                                 -> option (CsvEntry * string)) hB thisB row with
                 | Some (row', line) =>
                     exists t : string,
                       line = PerFormat.csvLine hB (columns hB row')
                       /\ (columns : PerFormat.Host -> CsvEntry -> list string) hB row' !! 0
                          = Some ("[code review] " +:+ t)
                       /\ title row' = title row /\ comment row' = comment row
                       /\ TitleRule row t
                       /\ ((otruthy (title row) = true /\ String.length t <= 255)
                           \/ (otruthy (title row) = false
                               /\ 100 < String.length (comment row)
                               /\ t = substring0 100 (comment row) +:+ "..."
                               /\ String.length t = 103)
                           \/ (otruthy (title row) = false /\ t = comment row
                               /\ String.length t <= 100))
                 | None =>
                     PerFormat.includeCodeSelection thisB = true
                     /\ forallb PerFormat.hasEnd (split "|" (lines row)) = false
                 end)
              [(PerFormat.onDataGitLab, PerFormat.gitlabColumns);
               (PerFormat.onDataGitHub, PerFormat.githubColumns);
               (PerFormat.onDataJira, PerFormat.jiraColumns)].
Proof.
  intros hA thisA hB thisB outputFile row. split.
  - assert (forall columns,
      let run := HandlerMap.handleDataCsv hA thisA columns outputFile row in
      effects run
      = HandlerMap.readsOf hA thisA row
        ++ [AppendFile outputFile (HandlerMap.csvLine hA (columns (value run)))]
      /\ title (value run) = title row
      /\ comment (value run) = escapeEndOfLineForCsv (comment row)) as Hcsv.
    { intros columns run. subst run. split; [apply handleDataCsv_effects |].
      by rewrite handleDataCsv_value. }
    each_format; cbn zeta;
      simpl HandlerMap.handleData; simpl HandlerMap.columnsOf;
      match goal with
      | |- context [HandlerMap.handleDataCsv hA thisA ?cols outputFile row] =>
          destruct (Hcsv cols) as (Hline & Htitle & Hcomment);
          set (run := HandlerMap.handleDataCsv hA thisA cols outputFile row) in *
      end;
      pose proof (titleOfA_rule (value run)) as Hrule;
      pose proof (TitleRule_cases _ _ Hrule) as Hlen;
      rewrite Htitle, Hcomment in Hlen;
      exists (HandlerMap.titleOf (value run));
      (split; [exact Hline |]);
      (split; [reflexivity |]);
      (split; [exact Htitle |]);
      (split; [exact Hcomment |]);
      (split; [by apply (TitleRule_ext (value run)) |]);
      exact Hlen.
  - assert (forall columns,
      match PerFormat.onDataCsv hB thisB columns row with
      | Some (row', line) =>
          line = PerFormat.csvLine hB (columns row')
          /\ title row' = title row /\ comment row' = comment row
      | None => PerFormat.includeCodeSelection thisB = true
                /\ forallb PerFormat.hasEnd (split "|" (lines row)) = false
      end) as Hcsv.
    { intros columns. pose proof (onDataCsvB hB thisB columns row) as H.
      destruct (PerFormat.onDataCsv hB thisB columns row) as [[row' line]|]; [|done].
      destruct H as (-> & c & ->). done. }
    each_format;
      unfold PerFormat.onDataGitLab, PerFormat.onDataGitHub, PerFormat.onDataJira;
      match goal with
      | |- context [PerFormat.onDataCsv hB thisB ?cols row] =>
          pose proof (Hcsv cols) as H;
          destruct (PerFormat.onDataCsv hB thisB cols row) as [[row' line]|]; [|exact H]
      end;
      destruct H as (-> & Htitle & Hcomment);
      pose proof (titleOfB_rule row') as Hrule;
      pose proof (TitleRule_cases _ _ Hrule) as Hlen;
      rewrite Htitle, Hcomment in Hlen;
      exists (PerFormat.titleOf row');
      (split; [reflexivity |]);
      (split; [reflexivity |]);
      (split; [exact Htitle |]);
      (split; [exact Hcomment |]);
      (split; [by apply (TitleRule_ext row') |]);
      exact Hlen.
Qed.

(** C3 (as stated) fails: a row without a title whose comment has exactly
    one hundred characters, the last one a line break, gets from the GitLab
    handler of the handler-map implementation a title of 103 characters (the
    first hundred characters of the comment with the line break escaped, and
    an ellipsis), not the comment unchanged; the data callback of the export
    does the same with the row as the parser delivers it. *)
Lemma C3_counterexample :
  title Example.rowLineBreak = None
  /\ String.length (comment Example.rowLineBreak) = 100
  /\ (let run := HandlerMap.handleData
                   (HandlerMap.exportHandlerMap Example.hostA
                      (Example.factoryA Group_filename false) gitlab)
                   "/ws/code-review.gitlab.csv" Example.rowLineBreak in
      effects run
      = [AppendFile "/ws/code-review.gitlab.csv"
           (HandlerMap.csvLine Example.hostA
              (HandlerMap.gitlabColumns Example.hostA (Example.factoryA Group_filename false)
                 (value run)))]
      /\ HandlerMap.gitlabColumns Example.hostA (Example.factoryA Group_filename false)
           (value run) !! 0
         = Some ("[code review] " +:+ Example.ys99 +:+ "\...")
      /\ String.length (Example.ys99 +:+ "\...") = 103
      /\ HandlerMap.onData
           (HandlerMap.exportHandlerMap Example.hostA
              (Example.factoryA Group_filename false) gitlab)
           "/ws/code-review.gitlab.csv" Example.rowLineBreak
         = run)
  /\ Example.ys99 +:+ "\..." <> comment Example.rowLineBreak.
Proof.
  split; [reflexivity | split; [reflexivity | split]].
  - cbn zeta. split; [reflexivity | split; [reflexivity | split; reflexivity]].
  - intros H. apply (f_equal String.length) in H. vm_compute in H. discriminate.
Qed.



Lemma or_else_truthy (o : option string) (d : string) :
  truthy d = true -> otruthy (or_else o d) = true.
Proof. unfold or_else. intros Hd. by destruct (otruthy o) eqn:Ho. Qed.

(** C5 (as amended): only the HTML export replaces an absent category:
    [groupResults], in both implementations, sets the category of a row to
    [Other] when it is empty or missing, and the HTML exports of both
    implementations hand such rows to the template; the GitLab, GitHub and
    JIRA renderers and the JSON exports of both implementations leave the
    category of a row as it was parsed. *)
Theorem C5_other_only_through_grouping :
  forall (hA : HandlerMap.Host) (thisA : HandlerMap.ExportFactory)
         (hB : PerFormat.Host) (thisB : PerFormat.ExportFactory)
         (g : GroupBy) (outputFile template : string) (rows : list CsvEntry) (row : CsvEntry),
    Forall2 (fun row row' => category row' = or_else (category row) "Other"
                             /\ otruthy (category row') = true)
            rows (HandlerMap.groupResults rows g).1
    /\ Forall2 (fun row row' => category row' = or_else (category row) "Other"
                                /\ otruthy (category row') = true)
               rows (PerFormat.groupResults rows g).1
    /\ Forall2 (fun row row' => category row' = or_else (category row) "Other")
               rows (value (HandlerMap.exportForFormat hA thisA html template rows))
    /\ Forall (fun format =>
                 category (value (HandlerMap.onData (HandlerMap.exportHandlerMap hA thisA format)
                                    outputFile row))
                 = category row
                 /\ Forall2 (fun row row' => category row' = category row)
                      rows (value (HandlerMap.exportForFormat hA thisA format template rows)))
              [gitlab; github; jira; json]
    /\ Forall (fun onData : PerFormat.Host -> PerFormat.ExportFactory -> CsvEntry
                            -> option (CsvEntry * string) =>
                 match onData hB thisB row with
                 | Some (row', line) => category row' = category row
                 | None =>
                     PerFormat.includeCodeSelection thisB = true
                     /\ forallb PerFormat.hasEnd (split "|" (lines row)) = false
                 end)
              [PerFormat.onDataGitLab; PerFormat.onDataGitHub; PerFormat.onDataJira]
    /\ match PerFormat.exportAsJson hB thisB rows with
       | Some written => Forall2 (fun row row' => category row' = category row) rows written
       | None =>
           PerFormat.includeCodeSelection thisB = true
           /\ Exists (fun row => forallb PerFormat.hasEnd (split "|" (lines row)) = false) rows
       end
    /\ match PerFormat.exportAsHtml hB thisB rows with
       | Some (store, _) =>
           Forall2 (fun row row' => category row' = or_else (category row) "Other"
                                    /\ otruthy (category row') = true)
                   rows store
       | None =>
           PerFormat.includeCodeSelection thisB = true
           /\ Exists (fun row => forallb PerFormat.hasEnd (split "|" (lines row)) = false) rows
       end.
Proof.
  intros hA thisA hB thisB g outputFile template rows row.
  split; [|split; [|split; [|split; [|split; [|split]]]]].
  - rewrite groupResultsA_store. apply Forall2_fmap_r.
    apply Forall_Forall2_diag, Forall_forall. intros r _. unfold compose.
    split; [done | by apply or_else_truthy].
  - rewrite groupResultsB_store. apply Forall2_fmap_r.
    apply Forall_Forall2_diag, Forall_forall. intros r _. unfold compose.
    split; [done | by apply or_else_truthy].
  - rewrite exportForFormat_value. cbn zeta. rewrite <- list_fmap_compose.
    apply Forall2_fmap_r. apply Forall_Forall2_diag, Forall_forall. intros r _.
    unfold compose. by rewrite onData_value.
  - each_format; (split; [by rewrite onData_value |]);
      rewrite exportForFormat_value; cbn zeta;
      apply Forall2_fmap_r; apply Forall_Forall2_diag, Forall_forall; intros r _;
      unfold compose; by rewrite onData_value.
  - each_format;
      unfold PerFormat.onDataGitLab, PerFormat.onDataGitHub, PerFormat.onDataJira;
      match goal with
      | |- context [PerFormat.onDataCsv hB thisB ?cols row] =>
          pose proof (onDataCsvB hB thisB cols row) as H;
          destruct (PerFormat.onDataCsv hB thisB cols row) as [[row' line]|]; [|exact H]
      end;
      by destruct H as (_ & c & ->).
  - unfold PerFormat.exportAsJson.
    destruct (mapM (PerFormat.setOrDeleteCode hB thisB) rows) as [written|] eqn:Hmap.
    + apply mapM_Some in Hmap. eapply Forall2_impl; [exact Hmap |].
      intros r r' Hr. cbn beta in Hr.
      pose proof (setOrDeleteCodeB hB thisB r) as H. rewrite Hr in H.
      by destruct H as (c & -> & _).
    + apply mapM_None in Hmap.
      assert (Exists (fun r => PerFormat.includeCodeSelection thisB = true
                /\ forallb PerFormat.hasEnd (split "|" (lines r)) = false) rows) as Hex.
      { eapply Exists_impl; [exact Hmap |]. intros r Hr. cbn beta in Hr.
        pose proof (setOrDeleteCodeB hB thisB r) as H. by rewrite Hr in H. }
      split.
      * apply Exists_exists in Hex as (r & _ & Hinc & _). exact Hinc.
      * eapply Exists_impl; [exact Hex |]. by intros r [_ ?].
  - unfold PerFormat.exportAsHtml.
    destruct (mapM _ rows) as [coded|] eqn:Hmap.
    + pose proof (groupResultsB_store coded (PerFormat.groupBy thisB)) as Hstore.
      destruct (PerFormat.groupResults coded (PerFormat.groupBy thisB)) as [store d].
      simpl in Hstore. subst store.
      apply mapM_Some in Hmap. apply Forall2_fmap_r.
      eapply Forall2_impl; [exact Hmap |]. intros r r' Hr. cbn beta in Hr.
      assert (exists c, r' = with_code c r) as (c & ->).
      { destruct (PerFormat.includeCodeSelection thisB).
        - destruct (PerFormat.getCodeForFile hB thisB (filename r) (lines r));
            [injection Hr as <-; by eexists | done].
        - injection Hr as <-. by eexists. }
      unfold compose. split; [done | by apply or_else_truthy].
    + apply mapM_None in Hmap.
      assert (Exists (fun r => PerFormat.includeCodeSelection thisB = true
                /\ forallb PerFormat.hasEnd (split "|" (lines r)) = false) rows) as Hex.
      { eapply Exists_impl; [exact Hmap |]. intros r Hr. cbn beta in Hr.
        destruct (PerFormat.includeCodeSelection thisB); [|done].
        split; [done |].
        rewrite getCodeForFileB_value in Hr.
        by destruct (forallb PerFormat.hasEnd (split "|" (lines r))). }
      split.
      * apply Exists_exists in Hex as (r & _ & Hinc & _). exact Hinc.
      * eapply Exists_impl; [exact Hex |]. by intros r [_ ?].
Qed.

(** C5 (as stated) fails: the JSON export writes the row without a category
    as it is, and the GitLab handler leaves it without one too. *)
Lemma C5_counterexample :
  category Example.rowEscaped = None
  /\ effects (HandlerMap.exportForFormat Example.hostA
                (Example.factoryA Group_filename false) json "t.hbs" [Example.rowEscaped])
     = [WriteFile "/ws/code-review.json"
          (Json [with_code None (with_comment ("a" +:+ LF +:+ "b") Example.rowEscaped)]);
        ShowInformationMessage
          "GitHub importable CSV file: '/ws/code-review.json' successfully created."]
  /\ category (with_code None (with_comment ("a" +:+ LF +:+ "b") Example.rowEscaped)) = None
  /\ category <$> value (HandlerMap.exportForFormat Example.hostA
                           (Example.factoryA Group_filename false) gitlab "t.hbs"
                           [Example.rowEscaped])
     = [None]
  /\ @None string <> Some "Other".
Proof. repeat split; try reflexivity. discriminate. Qed.

(** * Priorities *)

Lemma to_uint_not_Nil (n : nat) : Nat.to_uint n <> Nil.
Proof.
  intros Hnil. pose proof (Unsigned.of_to n) as Hn. rewrite Hnil in Hn.
  simpl in Hn. subst n. discriminate.
Qed.

Lemma array_index_string_of_nat (n : nat) : array_index (string_of_nat n) = Some n.
Proof.
  unfold array_index, string_of_nat.
  rewrite NilZero.usu by apply to_uint_not_Nil.
  rewrite Unsigned.of_to. by rewrite String.eqb_refl.
Qed.

Lemma priorityNameB_labels (p : option string) :
  PerFormat.priorityName p ∈ ["low"; "medium"; "high"; "none"].
Proof.
  unfold PerFormat.priorityName. destruct p as [p|]; [|by repeat constructor].
  destruct (String.eqb p "1"); [by repeat constructor |].
  destruct (String.eqb p "2"); [by repeat constructor |].
  destruct (String.eqb p "3"); by repeat constructor.
Qed.

Lemma priorityNameB_none (p : option string) :
  p <> Some "1" -> p <> Some "2" -> p <> Some "3" -> PerFormat.priorityName p = "none".
Proof.
  unfold PerFormat.priorityName. destruct p as [p|]; [|done]. intros H1 H2 H3.
  destruct (String.eqb_spec p "1"); [by subst |].
  destruct (String.eqb_spec p "2"); [by subst |].
  destruct (String.eqb_spec p "3"); [by subst | done].
Qed.

(** C6 (as amended): in the per-format implementation [priorityName] gives
    a label for every value and never fails: [low], [medium] and [high] for
    1, 2 and 3, and the unset label [none] for every other value and for an
    absent one; in the handler-map implementation [priorityName] gives the
    label the configured array holds at the priority, for every priority
    that is an index of the array. *)
Theorem C6_priority_label :
  (PerFormat.priorityName (Some "1") = "low"
   /\ PerFormat.priorityName (Some "2") = "medium"
   /\ PerFormat.priorityName (Some "3") = "high"
   /\ forall p : option string,
        PerFormat.priorityName p ∈ ["low"; "medium"; "high"; "none"]
        /\ (p <> Some "1" -> p <> Some "2" -> p <> Some "3"
            -> PerFormat.priorityName p = "none"))
  /\ (forall (h : HandlerMap.Host) (this : HandlerMap.ExportFactory) (n : nat),
        (forall label, HandlerMap.priorities this !! n = Some label ->
           HandlerMap.priorityName h this (Some (string_of_nat n)) = Element label)
        /\ (n < length (HandlerMap.priorities this)
            -> exists label, HandlerMap.priorities this !! n = Some label
                 /\ HandlerMap.priorityName h this (Some (string_of_nat n)) = Element label)).
Proof.
  split.
  - split; [reflexivity | split; [reflexivity | split; [reflexivity |]]].
    intros p. split; [apply priorityNameB_labels | apply priorityNameB_none].
  - intros h this n. unfold HandlerMap.priorityName, array_get. simpl tpl.
    rewrite array_index_string_of_nat. split.
    + by intros label ->.
    + intros Hn. destruct (lookup_lt_is_Some_2 _ _ Hn) as [label Hlabel].
      exists label. by rewrite Hlabel.
Qed.

(** C6 (as stated) fails: with four configured labels, the priority 7 and
    the absent priority have an undefined result in the handler-map
    implementation, and the JIRA handler writes [undefined] in the Priority
    column. *)
Lemma C6_counterexample :
  HandlerMap.priorities (Example.factoryA Group_filename false)
    = ["none"; "low"; "medium"; "high"]
  /\ HandlerMap.priorityName Example.hostA (Example.factoryA Group_filename false) (Some "7")
     = Undefined
  /\ HandlerMap.priorityName Example.hostA (Example.factoryA Group_filename false) None
     = Undefined
  /\ HandlerMap.jiraColumns Example.hostA (Example.factoryA Group_filename false)
       Example.rowPriority7 !! 2 = Some "undefined".
Proof. repeat split. Qed.

(** C7: for a row, the JIRA callback of the per-format implementation
    builds a line whose Priority column is 3, 2, 1 for the priorities 1, 2,
    3 and 3 for every other priority; the JIRA handler of the handler-map
    implementation appends a line whose Priority column is what the read of
    the configured array at the priority gives, the configured label when
    the priority is an index of the array; whatever the configuration,
    the two write different Priority columns for some row, and with the
    labels [none], [low], [medium], [high] the lines of a row of priority 3
    differ in the Priority column and nowhere else: [high] against 1. *)
Theorem C7_jira_priority_differs :
  (forall row : CsvEntry,
     (priority row = Some "1" -> PerFormat.jiraPriority row = 3%Z)
     /\ (priority row = Some "2" -> PerFormat.jiraPriority row = 2%Z)
     /\ (priority row = Some "3" -> PerFormat.jiraPriority row = 1%Z)
     /\ (priority row <> Some "1" -> priority row <> Some "2" -> priority row <> Some "3"
         -> PerFormat.jiraPriority row = 3%Z))
  /\ (forall (hB : PerFormat.Host) (thisB : PerFormat.ExportFactory) (row : CsvEntry),
        match PerFormat.onDataJira hB thisB row with
        | Some (row', line) =>
            line = PerFormat.csvLine hB (PerFormat.jiraColumns hB row')
            /\ length (PerFormat.jiraColumns hB row') = 11
            /\ PerFormat.jiraColumns hB row' !! 2
               = Some (PerFormat.string_of_Z (PerFormat.jiraPriority row))
        | None =>
            PerFormat.includeCodeSelection thisB = true
            /\ forallb PerFormat.hasEnd (split "|" (lines row)) = false
        end)
  /\ (forall (hA : HandlerMap.Host) (thisA : HandlerMap.ExportFactory)
             (outputFile : string) (row : CsvEntry),
        let run := HandlerMap.handleData (HandlerMap.exportHandlerMap hA thisA jira)
                     outputFile row in
        effects run
        = HandlerMap.readsOf hA thisA row
          ++ [AppendFile outputFile
                (HandlerMap.csvLine hA (HandlerMap.jiraColumns hA thisA (value run)))]
        /\ length (HandlerMap.jiraColumns hA thisA (value run)) = 11
        /\ HandlerMap.jiraColumns hA thisA (value run) !! 2
           = Some (tplValue (array_get (HandlerMap.prototypeProperty hA)
                               (HandlerMap.priorities thisA) (priority row)))
        /\ (forall (n : nat) (label : string),
              priority row = Some (string_of_nat n) ->
              HandlerMap.priorities thisA !! n = Some label ->
              HandlerMap.jiraColumns hA thisA (value run) !! 2 = Some label))
  /\ (forall (hA : HandlerMap.Host) (thisA : HandlerMap.ExportFactory)
             (hB : PerFormat.Host) (thisB : PerFormat.ExportFactory) (outputFile : string),
        exists (row rowB : CsvEntry),
          let run := HandlerMap.handleData (HandlerMap.exportHandlerMap hA thisA jira)
                       outputFile row in
          PerFormat.onDataJira hB thisB row
          = Some (rowB, PerFormat.csvLine hB (PerFormat.jiraColumns hB rowB))
          /\ AppendFile outputFile
               (HandlerMap.csvLine hA (HandlerMap.jiraColumns hA thisA (value run)))
             ∈ effects run
          /\ HandlerMap.jiraColumns hA thisA (value run) !! 2
             <> PerFormat.jiraColumns hB rowB !! 2)
  /\ (let row := with_priority (Some "3") Example.rowUnsorted in
      exists (columns : list string) (rowB : CsvEntry),
        length columns = 11
        /\ effects (HandlerMap.handleData
                      (HandlerMap.exportHandlerMap Example.hostA
                         (Example.factoryA Group_filename false) jira)
                      "/ws/code-review.jira.csv" row)
           = [AppendFile "/ws/code-review.jira.csv"
                (HandlerMap.csvLine Example.hostA (<[2 := "high"]> columns))]
        /\ PerFormat.onDataJira Example.hostB (Example.factoryB Group_filename false) row
           = Some (rowB, PerFormat.csvLine Example.hostB (<[2 := "1"]> columns))
        /\ HandlerMap.csvLine Example.hostA (<[2 := "high"]> columns)
           <> PerFormat.csvLine Example.hostB (<[2 := "1"]> columns)).
Proof.
  split; [|split; [|split; [|split]]].
  - intros row. unfold PerFormat.jiraPriority.
    destruct (priority row) as [p|].
    + repeat split.
      * by intros [= ->].
      * by intros [= ->].
      * by intros [= ->].
      * intros H1 H2 H3.
        destruct (String.eqb_spec p "1"); [by subst |].
        destruct (String.eqb_spec p "2"); [by subst |].
        destruct (String.eqb_spec p "3"); [by subst | done].
    + done.
  - intros hB thisB row. unfold PerFormat.onDataJira.
    pose proof (onDataCsvB hB thisB (PerFormat.jiraColumns hB) row) as H.
    destruct (PerFormat.onDataCsv hB thisB (PerFormat.jiraColumns hB) row)
      as [[row' line]|]; [|exact H].
    by destruct H as (-> & c & ->).
  - intros hA thisA outputFile row. cbn zeta. simpl HandlerMap.handleData.
    split; [apply handleDataCsv_effects | split; [done |]].
    rewrite handleDataCsv_value. split; [done |].
    intros n label Hn Hlabel. simpl. rewrite Hn.
    unfold HandlerMap.priorityName, array_get. simpl tpl.
    by rewrite array_index_string_of_nat, Hlabel.
  - intros hA thisA hB thisB outputFile.
    set (row := with_priority (Some (string_of_nat (length (HandlerMap.priorities thisA))))
                  Example.rowUnsorted).
    pose proof (onDataCsvB hB thisB (PerFormat.jiraColumns hB) row) as H.
    destruct (PerFormat.onDataCsv hB thisB (PerFormat.jiraColumns hB) row)
      as [[rowB line]|] eqn:Hrun.
    + destruct H as (-> & c & ->).
      exists row, (with_code c row). cbn zeta. simpl HandlerMap.handleData.
      split; [exact Hrun | split].
      * rewrite handleDataCsv_effects. apply elem_of_app. right.
        by apply list_elem_of_singleton.
      * rewrite handleDataCsv_value. simpl.
        unfold HandlerMap.priorityName, array_get. simpl tpl.
        rewrite array_index_string_of_nat.
        rewrite lookup_ge_None_2 by done. simpl.
        unfold PerFormat.jiraPriority. simpl priority.
        generalize (string_of_nat (length (HandlerMap.priorities thisA))). intros s.
        destruct (String.eqb s "1"); [discriminate |].
        destruct (String.eqb s "2"); [discriminate |].
        destruct (String.eqb s "3"); discriminate.
    + exfalso. destruct H as [_ H]. by vm_compute in H.
  - cbn zeta.
    exists (PerFormat.jiraColumns Example.hostB
              (with_priority (Some "3") Example.rowUnsorted)).
    eexists. split; [reflexivity | split; [reflexivity | split; [reflexivity |]]].
    intros H. vm_compute in H. discriminate.
Qed.

(** C8 (as amended): the text [getCodeForFile] extracts is made of the
    texts of the spans in the order of the selector, leading empty texts
    left out, with the separator (the marker on a line of its own, then an
    empty line) between every two of them, whether the spans are adjacent
    in the file or not; the per-format implementation gives this text when
    every token has a part after the dash and throws otherwise. *)
Theorem C8_separator_between_all_spans :
  (forall (h : HandlerMap.Host) (this : HandlerMap.ExportFactory) (filename lines : string),
     value (HandlerMap.getCodeForFile h this filename lines)
     = HandlerMap.encode h
         (join (HandlerMap.separator h)
            (dropEmpty (HandlerMap.spanText h this filename <$> HandlerMap.rangeStrings lines))))
  /\ (forall (h : PerFormat.Host) (this : PerFormat.ExportFactory) (filename lines : string),
        PerFormat.getCodeForFile h this filename lines
        = if forallb PerFormat.hasEnd (split "|" lines)
          then Some (join (PerFormat.separator h)
                       (dropEmpty (PerFormat.spanText h this filename <$> split "|" lines)))
          else None).
Proof.
  split.
  - intros. apply getCodeForFileA_value.
  - intros. apply getCodeForFileB_value.
Qed.

(** C8 (as stated) fails: lines 1 to 2 and lines 3 to 4 of the file are
    adjacent, and both implementations put the separator between their
    texts. *)
Lemma C8_counterexample :
  adjacent (Example.parseRange "1:0-2:0" 1) (Example.parseRange "3:0-4:0" 1) = true
  /\ PerFormat.getCodeForFile Example.hostB (Example.factoryB Group_filename true)
       "a.ts" "1:0-2:0|3:0-4:0"
     = Some (Example.linesOfFile 1 2 +:+ LF +:+ "..." +:+ LF +:+ LF +:+ Example.linesOfFile 3 4)
  /\ value (HandlerMap.getCodeForFile Example.hostA (Example.factoryA Group_filename true)
              "a.ts" "1:0-2:0|3:0-4:0")
     = Example.linesOfFile 1 2 +:+ LF +:+ "..." +:+ LF +:+ LF +:+ Example.linesOfFile 3 4
  /\ Example.linesOfFile 1 2 +:+ LF +:+ "..." +:+ LF +:+ LF +:+ Example.linesOfFile 3 4
     <> Example.linesOfFile 1 2 +:+ Example.linesOfFile 3 4.
Proof. repeat split; try reflexivity. discriminate. Qed.

Lemma concat_nils {A B} (f : A -> list B) (l : list A) :
  (forall x, f x = []) -> concat (f <$> l) = [].
Proof.
  intros Hf. induction l as [|x l IH]; [done |].
  rewrite fmap_cons. cbn [concat]. by rewrite Hf, IH.
Qed.

Lemma mapM_setOrDeleteCodeB (h : PerFormat.Host) (this : PerFormat.ExportFactory)
    (rows : list CsvEntry) :
  PerFormat.includeCodeSelection this = false ->
  mapM (PerFormat.setOrDeleteCode h this) rows = Some (with_code None <$> rows).
Proof.
  intros Hinc. apply mapM_Some. apply Forall2_fmap_r.
  apply Forall_Forall2_diag, Forall_forall. intros r _. unfold compose.
  unfold PerFormat.setOrDeleteCode. by rewrite Hinc.
Qed.

(** C9: with the include-code toggle off, the JSON export of either
    implementation writes one array, with one row object per parsed row and
    no [code] key in any of them. *)
Theorem C9_json_without_code :
  forall (hA : HandlerMap.Host) (thisA : HandlerMap.ExportFactory)
         (hB : PerFormat.Host) (thisB : PerFormat.ExportFactory)
         (template : string) (parsed : list CsvEntry),
    HandlerMap.includeCodeSelection thisA = false ->
    PerFormat.includeCodeSelection thisB = false ->
    (exists (rows : list CsvEntry) (msg : string),
       effects (HandlerMap.exportForFormat hA thisA json template parsed)
       = [WriteFile (HandlerMap.basePath hA thisA +:+ ".json") (Json rows);
          ShowInformationMessage msg]
       /\ length rows = length parsed
       /\ Forall (fun r => code r = None) rows)
    /\ (exists rows : list CsvEntry,
          PerFormat.exportAsJson hB thisB parsed = Some rows
          /\ length rows = length parsed
          /\ Forall (fun r => code r = None) rows).
Proof.
  intros hA thisA hB thisB template parsed HincA HincB. split.
  - eexists _, _. split; [|split].
    + rewrite exportForFormat_effects. cbn zeta. simpl HandlerMap.storeOutside. cbn iota.
      simpl HandlerMap.writeFileHeader. unfold ret at 1, effects at 1. simpl snd.
      rewrite app_nil_l.
      rewrite concat_nils.
      2:{ intros row. rewrite onData_unfold. cbn zeta.
          simpl HandlerMap.storeOutside. cbn iota. rewrite effects_bind.
          simpl HandlerMap.handleData. unfold HandlerMap.handleDataJson.
          destruct (setOrDeleteCodeA hA thisA
                      (with_comment (unescapeEndOfLineFromCsv (comment row)) row)) as [-> ->].
          destruct (setOrDeleteCodeA hA thisA
                      (with_code
                         (if HandlerMap.includeCodeSelection thisA
                          then Some (value (HandlerMap.getCodeForFile hA thisA
                                 (filename (with_comment (unescapeEndOfLineFromCsv (comment row)) row))
                                 (lines (with_comment (unescapeEndOfLineFromCsv (comment row)) row))))
                          else None)
                         (with_comment (unescapeEndOfLineFromCsv (comment row)) row))) as [_ ->].
          by rewrite HincA. }
      rewrite app_nil_l. reflexivity.
    + by rewrite length_fmap.
    + apply Forall_fmap, Forall_forall. intros row _. unfold compose.
      rewrite onData_value. simpl. unfold HandlerMap.codeOf. by rewrite HincA.
  - exists (with_code None <$> parsed). split; [|split].
    + by apply mapM_setOrDeleteCodeB.
    + by rewrite length_fmap.
    + apply Forall_fmap, Forall_forall. by intros row _.
Qed.

(** A run where the hypotheses of C9 hold. *)
Lemma C9_witness :
  HandlerMap.includeCodeSelection (Example.factoryA Group_filename false) = false
  /\ PerFormat.includeCodeSelection (Example.factoryB Group_filename false) = false
  /\ ((exists (rows : list CsvEntry) (msg : string),
         effects (HandlerMap.exportForFormat Example.hostA (Example.factoryA Group_filename false)
                    json "t.hbs" [Example.rowEscaped; Example.rowPriority7])
         = [WriteFile (HandlerMap.basePath Example.hostA (Example.factoryA Group_filename false)
                         +:+ ".json") (Json rows);
            ShowInformationMessage msg]
         /\ length rows = length [Example.rowEscaped; Example.rowPriority7]
         /\ Forall (fun r => code r = None) rows)
      /\ (exists rows : list CsvEntry,
            PerFormat.exportAsJson Example.hostB (Example.factoryB Group_filename false)
              [Example.rowEscaped; Example.rowPriority7] = Some rows
            /\ length rows = length [Example.rowEscaped; Example.rowPriority7]
            /\ Forall (fun r => code r = None) rows)).
Proof.
  split; [reflexivity | split; [reflexivity |]].
  apply (C9_json_without_code Example.hostA (Example.factoryA Group_filename false)
           Example.hostB (Example.factoryB Group_filename false)
           "t.hbs" [Example.rowEscaped; Example.rowPriority7]); reflexivity.
Defined.

Lemma length_concat_fmap {A B} (f : A -> list B) (l : list A) :
  length (concat (f <$> l)) = sum_list ((fun x => length (f x)) <$> l).
Proof.
  induction l as [|x l IH]; [done |].
  rewrite !fmap_cons. cbn [concat sum_list]. unfold id. by rewrite length_app, IH.
Qed.

Lemma sum_list_double {A} (f : A -> nat) (l : list A) :
  sum_list ((fun x => f x + f x) <$> l) = 2 * sum_list (f <$> l).
Proof.
  induction l as [|x l IH]; [done |].
  rewrite !fmap_cons. cbn [sum_list]. rewrite IH. unfold id. lia.
Qed.

Lemma length_readsOf h this row :
  length (HandlerMap.readsOf h this row)
  = if HandlerMap.includeCodeSelection this
    then length (HandlerMap.rangeStrings (lines row))
    else 0.
Proof.
  unfold HandlerMap.readsOf. destruct (HandlerMap.includeCodeSelection this); [|done].
  by rewrite getCodeForFileA_effects, length_fmap.
Qed.

(** C10: for the two formats with [storeOutside] set, HTML and JSON, the
    data callback of [exportForFormat] runs [handleData] twice on a row, the
    second time on the row the first call returned, so the span reads of a
    row happen twice and a whole export reads twice as many spans as the
    rows have range tokens; for the three streamed formats [handleData] runs
    once per row. *)
Theorem C10_handleData_twice_when_buffered :
  forall (h : HandlerMap.Host) (this : HandlerMap.ExportFactory)
         (outputFile template : string) (row : CsvEntry) (parsed : list CsvEntry),
    Forall (fun format =>
              let exporter := HandlerMap.exportHandlerMap h this format in
              let row0 := with_comment (unescapeEndOfLineFromCsv (comment row)) row in
              HandlerMap.storeOutside exporter = true
              /\ HandlerMap.onData exporter outputFile row
                 = bind (HandlerMap.handleData exporter outputFile row0)
                        (HandlerMap.handleData exporter outputFile)
              /\ filter (fun e => is_ReadRange e = true)
                   (effects (HandlerMap.onData exporter outputFile row))
                 = HandlerMap.readsOf h this row ++ HandlerMap.readsOf h this row
              /\ filter (fun e => is_ReadRange e = true)
                   (effects (HandlerMap.exportForFormat h this format template parsed))
                 = concat ((fun row => HandlerMap.readsOf h this row ++ HandlerMap.readsOf h this row)
                             <$> parsed)
              /\ length (filter (fun e => is_ReadRange e = true)
                           (effects (HandlerMap.exportForFormat h this format template parsed)))
                 = 2 * sum_list ((fun row => length (HandlerMap.readsOf h this row)) <$> parsed))
           [html; json]
    /\ Forall (fun format =>
                 let exporter := HandlerMap.exportHandlerMap h this format in
                 let row0 := with_comment (unescapeEndOfLineFromCsv (comment row)) row in
                 HandlerMap.storeOutside exporter = false
                 /\ HandlerMap.onData exporter outputFile row
                    = HandlerMap.handleData exporter outputFile row0
                 /\ filter (fun e => is_ReadRange e = true)
                      (effects (HandlerMap.exportForFormat h this format template parsed))
                    = concat (HandlerMap.readsOf h this <$> parsed))
              [gitlab; github; jira]
    /\ length (HandlerMap.readsOf h this row)
       = (if HandlerMap.includeCodeSelection this
          then length (HandlerMap.rangeStrings (lines row))
          else 0).
Proof.
  intros h this outputFile template row parsed. split; [|split].
  - each_format; cbn zeta;
      (split; [reflexivity |]);
      (split; [by rewrite onData_unfold |]);
      (split; [by rewrite onData_reads |]);
      rewrite exportForFormat_reads; simpl HandlerMap.storeOutside; cbn iota;
      (split; [reflexivity |]);
      rewrite length_concat_fmap, <- sum_list_double;
      f_equal; apply list_fmap_ext; intros _ r _; by rewrite length_app.
  - each_format; cbn zeta;
      (split; [reflexivity |]);
      (split; [by rewrite onData_unfold |]);
      by rewrite exportForFormat_reads.
  - apply length_readsOf.
Qed.

(** * Further properties of the two implementations *)

(** * The shape of the groups *)

Lemma Sorted_lt_snoc (l : list nat) (k : nat) :
  Sorted lt l -> Forall (fun p => p < k) l -> Sorted lt (l ++ [k]).
Proof.
  induction 1 as [|x l Hs IH Hhd]; intros Hall; simpl.
  - by repeat constructor.
  - inversion Hall as [|? ? Hx Hl]; subst. constructor; [by apply IH |].
    destruct Hhd; simpl; by constructor.
Qed.

Section GroupStructure.
Context {S K : Type}.
Variable norm : CsvEntry -> CsvEntry.
Variable add : CsvEntry -> nat -> list S -> list S.
Variable sl : S -> list nat.
Variable name : S -> K.
Variable key : CsvEntry -> K.

(** What [add] does: it appends the position to the first group named after
    the key of the row, or appends a new group of that name. *)
Hypothesis add_spec : forall (r : CsvEntry) (i : nat) (d : list S),
  (exists j m m',
      d !! j = Some m /\ name m = key (norm r)
      /\ (forall j' m0, j' < j -> d !! j' = Some m0 -> name m0 <> key (norm r))
      /\ add (norm r) i d = <[j := m']> d
      /\ name m' = name m /\ sl m' = sl m ++ [i])
  \/ ((forall m, m ∈ d -> name m <> key (norm r))
      /\ exists m', add (norm r) i d = d ++ [m']
                    /\ name m' = key (norm r) /\ sl m' = [i]).

Lemma GroupsOf_step (pre : list CsvEntry) (d : list S) (r : CsvEntry) :
  GroupsOf sl name key pre d -> GroupsOf sl name key (pre ++ [norm r]) (add (norm r) (length pre) d).
Proof.
  intros (Hnodup & Hall & Hheads).
  assert (Forall (fun s =>
            sl s <> [] /\ Sorted lt (sl s)
            /\ Forall (fun p => p < length (pre ++ [norm r])
                        /\ exists row, (pre ++ [norm r]) !! p = Some row /\ key row = name s)
                 (sl s)) d) as Hall'.
  { eapply Forall_impl; [exact Hall |]. intros s (Hne & Hs & Hps).
    split; [done | split; [done |]].
    eapply Forall_impl; [exact Hps |]. intros p (Hlt & row & Hrow & Hkey).
    rewrite length_app. simpl. split; [lia |].
    exists row. split; [| done]. by apply lookup_app_l_Some. }
  destruct (add_spec r (length pre) d)
    as [(j & m & m' & Hj & Hname & _ & -> & Hname' & Hsl') | (Hfresh & m' & -> & Hname' & Hsl')].
  - pose proof (Forall_lookup_1 _ _ _ _ Hall Hj) as (Hne & Hs & Hps).
    pose proof (Forall_lookup_1 _ _ _ _ Hall' Hj) as (_ & _ & Hps').
    split; [|split].
    + rewrite list_fmap_insert, Hname'. rewrite list_insert_id; [done |].
      by rewrite list_lookup_fmap, Hj.
    + apply Forall_insert; [done |]. rewrite Hsl', Hname'. split; [|split].
      * by destruct (sl m).
      * apply Sorted_lt_snoc; [done |].
        eapply Forall_impl; [exact Hps |]. by intros p [Hlt _].
      * apply Forall_app. split; [done |]. constructor; [|done].
        rewrite length_app. simpl. split; [lia |].
        exists (norm r). split; [| by rewrite Hname].
        by rewrite list_lookup_middle.
    + rewrite list_fmap_insert, Hsl'.
      rewrite list_insert_id; [done |].
      rewrite list_lookup_fmap, Hj. simpl. f_equal.
      by destruct (sl m).
  - split; [|split].
    + rewrite fmap_app. simpl. apply NoDup_app. split; [done | split].
      * intros k Hk Hk'. apply list_elem_of_singleton in Hk'. subst k.
        apply list_elem_of_fmap in Hk as (m & Hm & Hin).
        apply (Hfresh m Hin). by rewrite <- Hm, Hname'.
      * apply NoDup_singleton.
    + apply Forall_app. split; [done |]. constructor; [|done].
      rewrite Hsl', Hname'. split; [done | split].
      * by repeat constructor.
      * constructor; [|done]. rewrite length_app. simpl. split; [lia |].
        exists (norm r). split; [| done]. by rewrite list_lookup_middle.
    + rewrite fmap_app. simpl. rewrite Hsl'. simpl.
      apply Sorted_lt_snoc; [done |].
      apply Forall_fmap. eapply Forall_impl; [exact Hall |].
      intros s (Hne & _ & Hps). simpl.
      destruct (sl s) as [|p ps]; [done |]. simpl.
      inversion Hps as [|? ? [Hlt _] _]; subst. done.
Qed.

Lemma GroupsOf_fold (rows pre : list CsvEntry) (d : list S) :
  GroupsOf sl name key pre d ->
  GroupsOf sl name key (pre ++ (norm <$> rows))
    (foldl (group_step norm add) (pre ++ rows, d) (seq (length pre) (length rows))).2.
Proof.
  revert pre d. induction rows as [|r rows IH]; intros pre d Hinv.
  - simpl. by rewrite app_nil_r.
  - cbn [length seq foldl]. unfold group_step at 2.
    rewrite list_lookup_middle by done. cbn zeta.
    replace (<[length pre := norm r]> (pre ++ r :: rows))
      with ((pre ++ [norm r]) ++ rows).
    2:{ rewrite insert_app_r_alt by lia. rewrite Nat.sub_diag. simpl.
        by rewrite <- app_assoc. }
    replace (Datatypes.S (length pre)) with (length (pre ++ [norm r])).
    2:{ rewrite length_app. simpl. lia. }
    rewrite fmap_cons.
    replace (pre ++ norm r :: (norm <$> rows)) with ((pre ++ [norm r]) ++ (norm <$> rows))
      by (by rewrite <- app_assoc).
    apply IH. by apply GroupsOf_step.
Qed.

Lemma GroupsOf_nil : GroupsOf sl name key [] [].
Proof. split; [constructor | split; constructor]. Qed.

End GroupStructure.

Lemma addRowA_spec (g : GroupBy) (r : CsvEntry) (i : nat)
    (d : list HandlerMap.ReviewFileExportSection) :
  (exists j m m',
      d !! j = Some m
      /\ Some (HandlerMap.group m) = attribute g (HandlerMap.normalise r)
      /\ (forall j' m0, j' < j -> d !! j' = Some m0 ->
            Some (HandlerMap.group m0) <> attribute g (HandlerMap.normalise r))
      /\ HandlerMap.addRow g (HandlerMap.normalise r) i d = <[j := m']> d
      /\ Some (HandlerMap.group m') = Some (HandlerMap.group m)
      /\ HandlerMap.section_lines m' = HandlerMap.section_lines m ++ [i])
  \/ ((forall m, m ∈ d -> Some (HandlerMap.group m) <> attribute g (HandlerMap.normalise r))
      /\ exists m', HandlerMap.addRow g (HandlerMap.normalise r) i d = d ++ [m']
                    /\ Some (HandlerMap.group m') = attribute g (HandlerMap.normalise r)
                    /\ HandlerMap.section_lines m' = [i]).
Proof.
  unfold HandlerMap.addRow.
  destruct (list_find _ d) as [[j m]|] eqn:Hfind.
  - left. apply list_find_Some in Hfind as (Hj & Hm & Hmin).
    eexists j, m, _. repeat split; try done.
    intros j' m0 Hlt Hj'. by apply (Hmin j' m0).
  - right. apply list_find_None in Hfind. split.
    + intros m Hin. by apply (proj1 (Forall_forall _ _) Hfind m).
    + eexists. repeat split. simpl.
      by destruct (attribute_normalised g r) as [k ->].
Qed.

Lemma addRowB_spec (g : GroupBy) (r : CsvEntry) (i : nat)
    (d : list PerFormat.ReviewFileExportSection) :
  (exists j m m',
      d !! j = Some m
      /\ PerFormat.group m = attribute g (PerFormat.normalise r)
      /\ (forall j' m0, j' < j -> d !! j' = Some m0 ->
            PerFormat.group m0 <> attribute g (PerFormat.normalise r))
      /\ PerFormat.addRow g (PerFormat.normalise r) i d = <[j := m']> d
      /\ PerFormat.group m' = PerFormat.group m
      /\ PerFormat.section_lines m' = PerFormat.section_lines m ++ [i])
  \/ ((forall m, m ∈ d -> PerFormat.group m <> attribute g (PerFormat.normalise r))
      /\ exists m', PerFormat.addRow g (PerFormat.normalise r) i d = d ++ [m']
                    /\ PerFormat.group m' = attribute g (PerFormat.normalise r)
                    /\ PerFormat.section_lines m' = [i]).
Proof.
  unfold PerFormat.addRow.
  destruct (list_find _ d) as [[j m]|] eqn:Hfind.
  - left. apply list_find_Some in Hfind as (Hj & Hm & Hmin).
    eexists j, m, _. repeat split; try done.
    intros j' m0 Hlt Hj'. by apply (Hmin j' m0).
  - right. apply list_find_None in Hfind. split.
    + intros m Hin. by apply (proj1 (Forall_forall _ _) Hfind m).
    + eexists. by repeat split.
Qed.

Lemma groupResultsA_GroupsOf (rows : list CsvEntry) (g : GroupBy) :
  GroupsOf HandlerMap.section_lines (fun m => Some (HandlerMap.group m)) (attribute g)
    (HandlerMap.groupResults rows g).1 (HandlerMap.groupResults rows g).2.
Proof.
  rewrite groupResultsA_store.
  exact (GroupsOf_fold HandlerMap.normalise (HandlerMap.addRow g) HandlerMap.section_lines
           (fun m => Some (HandlerMap.group m)) (attribute g) (addRowA_spec g)
           rows [] [] (GroupsOf_nil _ _ _)).
Qed.

Lemma groupResultsB_GroupsOf (rows : list CsvEntry) (g : GroupBy) :
  GroupsOf PerFormat.section_lines PerFormat.group (attribute g)
    (PerFormat.groupResults rows g).1 (PerFormat.groupResults rows g).2.
Proof.
  rewrite groupResultsB_store.
  exact (GroupsOf_fold PerFormat.normalise (PerFormat.addRow g) PerFormat.section_lines
           PerFormat.group (attribute g) (addRowB_spec g)
           rows [] [] (GroupsOf_nil _ _ _)).
Qed.

(** X1: in both implementations the groups of [groupResults] are a
    partition of the rows by the grouping attribute: no two groups have the
    same name, and every row a group holds has, in the state grouping left
    it in, the grouping attribute the group is named after. *)
Theorem X1_groups_partition_by_key :
  forall (rows : list CsvEntry) (g : GroupBy),
    (NoDup (HandlerMap.group <$> (HandlerMap.groupResults rows g).2)
     /\ Forall (fun s =>
                  Forall (fun p => exists row,
                            (HandlerMap.groupResults rows g).1 !! p = Some row
                            /\ attribute g row = Some (HandlerMap.group s))
                         (HandlerMap.section_lines s))
               (HandlerMap.groupResults rows g).2)
    /\ (NoDup (PerFormat.group <$> (PerFormat.groupResults rows g).2)
        /\ Forall (fun s =>
                     Forall (fun p => exists row,
                               (PerFormat.groupResults rows g).1 !! p = Some row
                               /\ attribute g row = PerFormat.group s)
                            (PerFormat.section_lines s))
                  (PerFormat.groupResults rows g).2).
Proof.
  intros rows g. split.
  - destruct (groupResultsA_GroupsOf rows g) as (Hnodup & Hall & _). split.
    + apply (NoDup_fmap_1 Some). by rewrite <- list_fmap_compose.
    + eapply Forall_impl; [exact Hall |]. intros s (_ & _ & Hps).
      eapply Forall_impl; [exact Hps |]. intros p (_ & row & Hrow & Hkey).
      by exists row.
  - destruct (groupResultsB_GroupsOf rows g) as (Hnodup & Hall & _). split; [done |].
    eapply Forall_impl; [exact Hall |]. intros s (_ & _ & Hps).
    eapply Forall_impl; [exact Hps |]. intros p (_ & row & Hrow & Hkey).
    by exists row.
Qed.

(** X2: in both implementations [groupResults] is a stable partition: no
    group is empty, a group holds its rows in the order of the input, and
    the groups come in the order in which their first rows come in the
    input. *)
Theorem X2_groups_in_first_seen_order :
  forall (rows : list CsvEntry) (g : GroupBy),
    (Forall (fun s => HandlerMap.section_lines s <> []
                      /\ Sorted lt (HandlerMap.section_lines s))
            (HandlerMap.groupResults rows g).2
     /\ Sorted lt ((fun s => hd 0 (HandlerMap.section_lines s))
                     <$> (HandlerMap.groupResults rows g).2))
    /\ (Forall (fun s => PerFormat.section_lines s <> []
                         /\ Sorted lt (PerFormat.section_lines s))
               (PerFormat.groupResults rows g).2
        /\ Sorted lt ((fun s => hd 0 (PerFormat.section_lines s))
                        <$> (PerFormat.groupResults rows g).2)).
Proof.
  intros rows g. split.
  - destruct (groupResultsA_GroupsOf rows g) as (_ & Hall & Hheads). split; [|done].
    eapply Forall_impl; [exact Hall |]. by intros s (Hne & Hs & _).
  - destruct (groupResultsB_GroupsOf rows g) as (_ & Hall & Hheads). split; [|done].
    eapply Forall_impl; [exact Hall |]. by intros s (Hne & Hs & _).
Qed.

Section SamePartition.
Context {S1 S2 K : Type}.
Variable norm1 norm2 : CsvEntry -> CsvEntry.
Variable add1 : CsvEntry -> nat -> list S1 -> list S1.
Variable add2 : CsvEntry -> nat -> list S2 -> list S2.
Variable sl1 : S1 -> list nat.
Variable sl2 : S2 -> list nat.
Variable name1 : S1 -> K.
Variable name2 : S2 -> K.
Variable key : CsvEntry -> K.

Hypothesis add1_spec : forall (r : CsvEntry) (i : nat) (d : list S1),
  (exists j m m',
      d !! j = Some m /\ name1 m = key (norm1 r)
      /\ (forall j' m0, j' < j -> d !! j' = Some m0 -> name1 m0 <> key (norm1 r))
      /\ add1 (norm1 r) i d = <[j := m']> d
      /\ name1 m' = name1 m /\ sl1 m' = sl1 m ++ [i])
  \/ ((forall m, m ∈ d -> name1 m <> key (norm1 r))
      /\ exists m', add1 (norm1 r) i d = d ++ [m']
                    /\ name1 m' = key (norm1 r) /\ sl1 m' = [i]).

Hypothesis add2_spec : forall (r : CsvEntry) (i : nat) (d : list S2),
  (exists j m m',
      d !! j = Some m /\ name2 m = key (norm2 r)
      /\ (forall j' m0, j' < j -> d !! j' = Some m0 -> name2 m0 <> key (norm2 r))
      /\ add2 (norm2 r) i d = <[j := m']> d
      /\ name2 m' = name2 m /\ sl2 m' = sl2 m ++ [i])
  \/ ((forall m, m ∈ d -> name2 m <> key (norm2 r))
      /\ exists m', add2 (norm2 r) i d = d ++ [m']
                    /\ name2 m' = key (norm2 r) /\ sl2 m' = [i]).

Hypothesis key_agree : forall r, key (norm1 r) = key (norm2 r).

Let same (a : S1) (b : S2) : Prop := name1 a = name2 b /\ sl1 a = sl2 b.

Lemma same_step (r : CsvEntry) (i : nat) (d1 : list S1) (d2 : list S2) :
  Forall2 same d1 d2 -> Forall2 same (add1 (norm1 r) i d1) (add2 (norm2 r) i d2).
Proof.
  intros Hrel.
  destruct (add1_spec r i d1)
    as [(j1 & m1 & m1' & Hj1 & Hn1 & Hmin1 & -> & Hn1' & Hsl1) | (Hfresh1 & m1' & -> & Hn1' & Hsl1)];
  destruct (add2_spec r i d2)
    as [(j2 & m2 & m2' & Hj2 & Hn2 & Hmin2 & -> & Hn2' & Hsl2) | (Hfresh2 & m2' & -> & Hn2' & Hsl2)].
  - assert (j1 = j2) as <-.
    { destruct (Nat.lt_trichotomy j1 j2) as [Hlt | [Heq | Hgt]]; [|done|].
      - destruct (Forall2_lookup_l _ _ _ _ _ Hrel Hj1) as (b & Hb & Hnb & _).
        exfalso. apply (Hmin2 j1 b Hlt Hb). by rewrite <- Hnb, Hn1, key_agree.
      - destruct (Forall2_lookup_r _ _ _ _ _ Hrel Hj2) as (a & Ha & Hna & _).
        exfalso. apply (Hmin1 j2 a Hgt Ha). by rewrite Hna, Hn2, key_agree. }
    destruct (Forall2_lookup_l _ _ _ _ _ Hrel Hj1) as (b & Hb & Hnb & Hslb).
    rewrite Hj2 in Hb. injection Hb as <-.
    apply Forall2_insert; [done |]. split.
    + by rewrite Hn1', Hn2'.
    + by rewrite Hsl1, Hsl2, Hslb.
  - destruct (Forall2_lookup_l _ _ _ _ _ Hrel Hj1) as (b & Hb & Hnb & _).
    exfalso. apply (Hfresh2 b).
    + by eapply list_elem_of_lookup_2.
    + by rewrite <- Hnb, Hn1, key_agree.
  - destruct (Forall2_lookup_r _ _ _ _ _ Hrel Hj2) as (a & Ha & Hna & _).
    exfalso. apply (Hfresh1 a).
    + by eapply list_elem_of_lookup_2.
    + by rewrite Hna, Hn2, key_agree.
  - apply Forall2_app; [done |]. constructor; [|constructor]. split.
    + by rewrite Hn1', Hn2', key_agree.
    + by rewrite Hsl1, Hsl2.
Qed.

Lemma same_fold (rows pre1 pre2 : list CsvEntry) (d1 : list S1) (d2 : list S2) :
  length pre1 = length pre2 ->
  Forall2 same d1 d2 ->
  Forall2 same
    (foldl (group_step norm1 add1) (pre1 ++ rows, d1) (seq (length pre1) (length rows))).2
    (foldl (group_step norm2 add2) (pre2 ++ rows, d2) (seq (length pre2) (length rows))).2.
Proof.
  revert pre1 pre2 d1 d2. induction rows as [|r rows IH]; intros pre1 pre2 d1 d2 Hlen Hrel.
  - done.
  - cbn [length seq foldl]. unfold group_step at 2 4.
    rewrite !list_lookup_middle by done. cbn zeta.
    replace (<[length pre1 := norm1 r]> (pre1 ++ r :: rows))
      with ((pre1 ++ [norm1 r]) ++ rows).
    2:{ rewrite insert_app_r_alt by lia. rewrite Nat.sub_diag. simpl.
        by rewrite <- app_assoc. }
    replace (<[length pre2 := norm2 r]> (pre2 ++ r :: rows))
      with ((pre2 ++ [norm2 r]) ++ rows).
    2:{ rewrite insert_app_r_alt by lia. rewrite Nat.sub_diag. simpl.
        by rewrite <- app_assoc. }
    replace (Datatypes.S (length pre1)) with (length (pre1 ++ [norm1 r]))
      by (rewrite length_app; simpl; lia).
    replace (Datatypes.S (length pre2)) with (length (pre2 ++ [norm2 r]))
      by (rewrite length_app; simpl; lia).
    apply IH.
    + rewrite !length_app. simpl. lia.
    + rewrite <- Hlen. by apply same_step.
Qed.

End SamePartition.

Lemma attribute_normalise_agree (g : GroupBy) (r : CsvEntry) :
  attribute g (HandlerMap.normalise r) = attribute g (PerFormat.normalise r).
Proof. by destruct g. Qed.

(** X3: on the same rows and the same grouping key the two implementations
    of [groupResults] build the same groups: as many, in the same order,
    with the same names and the same rows. *)
Theorem X3_both_implementations_group_alike :
  forall (rows : list CsvEntry) (g : GroupBy),
    Forall2 (fun a b =>
               Some (HandlerMap.group a) = PerFormat.group b
               /\ HandlerMap.section_lines a = PerFormat.section_lines b)
            (HandlerMap.groupResults rows g).2 (PerFormat.groupResults rows g).2.
Proof.
  intros rows g.
  apply (same_fold HandlerMap.normalise PerFormat.normalise
           (HandlerMap.addRow g) (PerFormat.addRow g)
           HandlerMap.section_lines PerFormat.section_lines
           (fun m => Some (HandlerMap.group m)) PerFormat.group
           (attribute g) (addRowA_spec g) (addRowB_spec g)
           (attribute_normalise_agree g) rows [] [] [] []); [done | constructor].
Qed.

(** * Grouping again *)

Lemma sort_Sorted_id {A} (cmp : A -> A -> Z) (l : list A) :
  Sorted (fun a b => (cmp a b <= 0)%Z) l -> sort cmp l = l.
Proof.
  induction 1 as [|x l Hs IH Hhd]; [done |].
  simpl. fold (sort cmp l). rewrite IH.
  destruct Hhd as [|y l Hxy]; [done |]. simpl.
  by destruct (Z.leb_spec (cmp x y) 0); [| lia].
Qed.

Lemma or_else_idem (o : option string) (d : string) :
  truthy d = true -> or_else (or_else o d) d = or_else o d.
Proof.
  intros Hd. unfold or_else at 1. by rewrite or_else_truthy.
Qed.

Lemma normaliseA_idem (row : CsvEntry) :
  HandlerMap.normalise (HandlerMap.normalise row) = HandlerMap.normalise row.
Proof.
  pose proof (normaliseA_tokens row) as Htok.
  unfold HandlerMap.normalise in *. simpl in *.
  unfold with_lines, with_category. simpl.
  rewrite Htok, or_else_idem by done.
  rewrite sort_Sorted_id; [done |].
  apply sort_Sorted, sortLineSelections_total.
Qed.

(** X4: in the handler-map implementation grouping rows that have been
    grouped before, by the same key or by another, leaves every row as it
    is: the category and the order of the range tokens do not change a
    second time. *)
Theorem X4_grouping_again_keeps_the_rows :
  forall (rows : list CsvEntry) (g g' : GroupBy),
    (HandlerMap.groupResults (HandlerMap.groupResults rows g).1 g').1
    = (HandlerMap.groupResults rows g).1.
Proof.
  intros rows g g'. rewrite !groupResultsA_store, <- list_fmap_compose.
  apply list_fmap_ext. intros _ row _. apply normaliseA_idem.
Qed.

(** * Range selectors with tokens that are empty or have no dash *)

Lemma split_two_pieces (sep : ascii) (t : string) :
  occurs sep t = true -> exists a b l, split sep t = a :: b :: l.
Proof.
  induction t as [|c t IH]; [done |]. simpl.
  destruct (Ascii.eqb c sep) eqn:Hc; simpl.
  - intros _. destruct (split sep t) as [|b l] eqn:Hs.
    + by destruct (split_not_nil sep t).
    + by eexists _, _, _.
  - intros Hocc. destruct (IH Hocc) as (a & b & l & ->). by eexists _, _, _.
Qed.

Lemma hasEnd_occurs (t : string) : PerFormat.hasEnd t = occurs "-" t.
Proof.
  unfold PerFormat.hasEnd. destruct (occurs "-" t) eqn:Hocc.
  - by destruct (split_two_pieces _ _ Hocc) as (a & b & l & ->).
  - by rewrite split_one_piece.
Qed.

(** X5: in the per-format implementation [getCodeForFile] returns a text
    exactly when every piece of the selector between the bars holds a dash;
    on any other selector it throws, and so it does on the empty selector,
    whose only piece is empty. *)
Theorem X5_getCodeForFile_throws_without_dash :
  forall (h : PerFormat.Host) (this : PerFormat.ExportFactory) (filename lines : string),
    (is_Some (PerFormat.getCodeForFile h this filename lines)
     <-> Forall (fun t => occurs "-" t = true) (split "|" lines))
    /\ PerFormat.getCodeForFile h this filename EmptyString = None.
Proof.
  intros h this filename lines. split.
  - rewrite getCodeForFileB_value.
    destruct (forallb PerFormat.hasEnd (split "|" lines)) eqn:Hall.
    + split; [intros _ | by eexists].
      pose proof (proj1 (forallb_forall _ _) Hall) as Hall'.
      apply Forall_forall. intros t Ht.
      rewrite <- hasEnd_occurs. apply Hall'. by apply list_elem_of_In.
    + split; [by intros [? ?] |]. intros HF. exfalso.
      assert (forallb PerFormat.hasEnd (split "|" lines) = true) as Htrue; [|congruence].
      apply (proj2 (forallb_forall _ _)). intros t Ht. rewrite hasEnd_occurs.
      apply (proj1 (Forall_forall _ _) HF). by apply list_elem_of_In.
  - by rewrite getCodeForFileB_value.
Qed.

Lemma W_eta {A} (m : W A) : m = (value m, effects m).
Proof. by destruct m. Qed.

(** X6: in the handler-map implementation [getCodeForFile] skips the empty
    pieces of a selector: two selectors with the same non-empty pieces give
    the same text and the same reads, and a selector without a non-empty
    piece, the empty selector among them, gives the encoding of the empty
    text and reads nothing. *)
Theorem X6_getCodeForFile_skips_empty_tokens :
  forall (h : HandlerMap.Host) (this : HandlerMap.ExportFactory) (filename : string),
    (forall l1 l2 : string,
       HandlerMap.rangeStrings l1 = HandlerMap.rangeStrings l2 ->
       HandlerMap.getCodeForFile h this filename l1
       = HandlerMap.getCodeForFile h this filename l2)
    /\ (forall l : string,
          HandlerMap.rangeStrings l = [] ->
          HandlerMap.getCodeForFile h this filename l = (HandlerMap.encode h EmptyString, []))
    /\ HandlerMap.rangeStrings EmptyString = []
    /\ HandlerMap.rangeStrings "|" = [].
Proof.
  intros h this filename. split; [|split; [|split]]; try reflexivity.
  - intros l1 l2 Heq.
    rewrite (W_eta (HandlerMap.getCodeForFile h this filename l1)).
    rewrite (W_eta (HandlerMap.getCodeForFile h this filename l2)).
    by rewrite !getCodeForFileA_value, !getCodeForFileA_effects, Heq.
  - intros l Hnil.
    rewrite (W_eta (HandlerMap.getCodeForFile h this filename l)).
    by rewrite getCodeForFileA_value, getCodeForFileA_effects, Hnil.
Qed.

(** * Calling handleData a second time *)

(** X7: for the two buffered formats, HTML and JSON, the second call of
    [handleData] that [exportForFormat] makes on a row leaves the row as
    the first call returned it, so the row pushed to [data] is the row of a
    single call on the unescaped row. *)
Theorem X7_second_handleData_keeps_the_row :
  forall (h : HandlerMap.Host) (this : HandlerMap.ExportFactory)
         (outputFile : string) (row : CsvEntry),
    Forall (fun format =>
              let exporter := HandlerMap.exportHandlerMap h this format in
              value (HandlerMap.handleData exporter outputFile
                       (value (HandlerMap.handleData exporter outputFile row)))
              = value (HandlerMap.handleData exporter outputFile row)
              /\ value (HandlerMap.onData exporter outputFile row)
                 = value (HandlerMap.handleData exporter outputFile
                            (with_comment (unescapeEndOfLineFromCsv (comment row)) row)))
           [html; json].
Proof.
  intros h this outputFile row.
  each_format; cbn zeta; (split; [by rewrite !handleData_value |]);
    by rewrite onData_value, handleData_value.
Qed.

(** * The effects of a whole export *)

Section ExportEffects.
Variable h : HandlerMap.Host.
Variable this : HandlerMap.ExportFactory.

Lemma setOrDeleteCode_effects (row : CsvEntry) :
  effects (HandlerMap.setOrDeleteCode h this row) = HandlerMap.readsOf h this row.
Proof. by destruct (setOrDeleteCodeA h this row) as [_ ->]. Qed.

Lemma handleData_effects format outputFile row :
  effects (HandlerMap.handleData (HandlerMap.exportHandlerMap h this format) outputFile row)
  = HandlerMap.readsOf h this row
    ++ match format with
       | html | json => []
       | _ => [AppendFile outputFile
                 (HandlerMap.csvLine h
                    (HandlerMap.columnsOf h this format
                       (value (HandlerMap.handleData
                                 (HandlerMap.exportHandlerMap h this format) outputFile row))))]
       end.
Proof.
  destruct format; simpl HandlerMap.handleData; simpl HandlerMap.columnsOf;
    rewrite ?handleDataCsv_effects, ?handleDataHtml_effects, ?app_nil_r; try reflexivity.
  unfold HandlerMap.handleDataJson. apply setOrDeleteCode_effects.
Qed.

Lemma onData_effects format outputFile row :
  effects (HandlerMap.onData (HandlerMap.exportHandlerMap h this format) outputFile row)
  = match format with
    | html | json => HandlerMap.readsOf h this row ++ HandlerMap.readsOf h this row
    | _ => HandlerMap.readsOf h this row
           ++ [AppendFile outputFile
                 (HandlerMap.csvLine h
                    (HandlerMap.columnsOf h this format
                       (value (HandlerMap.onData
                                 (HandlerMap.exportHandlerMap h this format) outputFile row))))]
    end.
Proof.
  rewrite onData_unfold. cbn zeta.
  destruct format; simpl HandlerMap.storeOutside; cbn iota;
    rewrite ?effects_bind, !handleData_effects, ?handleData_value, ?app_nil_r; reflexivity.
Qed.

Lemma rows_effects format outputFile (parsed : list CsvEntry) :
  (fun row => effects (HandlerMap.onData (HandlerMap.exportHandlerMap h this format)
                         outputFile row)) <$> parsed
  = (fun row =>
       match format with
       | html | json => HandlerMap.readsOf h this row ++ HandlerMap.readsOf h this row
       | _ => HandlerMap.readsOf h this row
              ++ [AppendFile outputFile
                    (HandlerMap.csvLine h
                       (HandlerMap.columnsOf h this format
                          (value (HandlerMap.onData
                                    (HandlerMap.exportHandlerMap h this format)
                                    outputFile row))))]
       end) <$> parsed.
Proof. apply list_fmap_ext. intros _ row _. apply onData_effects. Qed.

Lemma handleEndHtml_effects outputFile rows template :
  effects (HandlerMap.handleEndHtml h this outputFile rows template)
  = ReadFile template
    :: (if truthy (HandlerMap.readFileSync h template) then []
        else [ShowErrorMessage
                ("Error when reading the template file: '" +:+ template +:+ "'")])
    ++ [WriteFile outputFile
          (Html (HandlerMap.readFileSync h template)
             (HandlerMap.resolve (HandlerMap.htmlReviewExportData h this rows).1
                (HandlerMap.htmlReviewExportData h this rows).2));
        ShowInformationMessage
          ("Code review file: '" +:+ outputFile +:+ "' successfully created.");
        ShowPreview outputFile].
Proof.
  unfold HandlerMap.handleEndHtml.
  destruct (HandlerMap.htmlReviewExportData h this rows) as [store d].
  by destruct (truthy (HandlerMap.readFileSync h template)).
Qed.

End ExportEffects.

(** X8: a streamed export (GitLab, GitHub, JIRA) of the handler-map
    implementation writes the header line to its output file first, then,
    row after row in the order of the input, reads the spans of the row
    (when code is included) and appends exactly one line, and ends with a
    message; for an input without rows the file holds the header alone. *)
Theorem X8_streamed_export_header_then_one_line_per_row :
  forall (h : HandlerMap.Host) (this : HandlerMap.ExportFactory)
         (template : string) (parsed : list CsvEntry),
    Forall (fun format =>
              let exporter := HandlerMap.exportHandlerMap h this format in
              let outputFile := HandlerMap.outputFileOf h this format in
              exists header msg : string,
                effects (HandlerMap.exportForFormat h this format template parsed)
                = WriteFile outputFile (Text (header +:+ HandlerMap.EOL h))
                  :: concat ((fun row =>
                                HandlerMap.readsOf h this row
                                ++ [AppendFile outputFile
                                      (HandlerMap.csvLine h
                                         (HandlerMap.columnsOf h this format
                                            (value (HandlerMap.onData exporter outputFile row))))])
                               <$> parsed)
                  ++ [ShowInformationMessage msg]
                /\ effects (HandlerMap.exportForFormat h this format template [])
                   = [WriteFile outputFile (Text (header +:+ HandlerMap.EOL h));
                      ShowInformationMessage msg])
           [gitlab; github; jira].
Proof.
  intros h this template parsed.
  each_format; cbn zeta; eexists _, _;
    (split; [| reflexivity]);
    rewrite exportForFormat_effects; cbn zeta;
    unfold HandlerMap.outputFileOf;
    simpl HandlerMap.writeFileHeader; simpl HandlerMap.storeOutside; cbn iota;
    simpl HandlerMap.handleEnd;
    unfold emit at 1, effects at 1; simpl snd;
    by rewrite rows_effects.
Qed.

(** X9: the JSON export of the handler-map implementation never appends:
    after the span reads of the rows, each made twice, it writes its output
    file once, with the array of all the rows, and shows a message; for an
    input without rows it writes the empty array. *)
Theorem X9_json_export_writes_once :
  forall (h : HandlerMap.Host) (this : HandlerMap.ExportFactory)
         (template : string) (parsed : list CsvEntry),
    exists msg : string,
      effects (HandlerMap.exportForFormat h this json template parsed)
      = concat ((fun row => HandlerMap.readsOf h this row ++ HandlerMap.readsOf h this row)
                  <$> parsed)
        ++ [WriteFile (HandlerMap.outputFileOf h this json)
              (Json (value (HandlerMap.exportForFormat h this json template parsed)));
            ShowInformationMessage msg]
      /\ length (value (HandlerMap.exportForFormat h this json template parsed))
         = length parsed
      /\ effects (HandlerMap.exportForFormat h this json template [])
         = [WriteFile (HandlerMap.outputFileOf h this json) (Json []);
            ShowInformationMessage msg].
Proof.
  intros h this template parsed. eexists. split; [|split]; [| | reflexivity].
  - rewrite exportForFormat_effects, exportForFormat_value. cbn zeta.
    unfold HandlerMap.outputFileOf.
    simpl HandlerMap.writeFileHeader. simpl HandlerMap.storeOutside. cbn iota.
    simpl HandlerMap.handleEnd.
    unfold ret at 1, effects at 1. simpl snd. rewrite app_nil_l.
    by rewrite rows_effects.
  - rewrite exportForFormat_value. cbn zeta. by rewrite length_fmap.
Qed.

Lemma resolve_rows (store : list CsvEntry) (d : list HandlerMap.ReviewFileExportSection) :
  concat (snd <$> HandlerMap.resolve store d)
  = deref store (concat (HandlerMap.section_lines <$> d)).
Proof.
  induction d as [|s d IH]; [done |].
  rewrite fmap_cons. cbn [concat]. unfold deref at 1. rewrite omap_app.
  fold (deref store (concat (HandlerMap.section_lines <$> d))). rewrite <- IH.
  reflexivity.
Qed.

Lemma concat_sections_perm (d d' : list HandlerMap.ReviewFileExportSection) :
  Forall2 (fun s s' => HandlerMap.group s' = HandlerMap.group s
                       /\ HandlerMap.section_lines s' ≡ₚ HandlerMap.section_lines s) d d' ->
  concat (HandlerMap.section_lines <$> d') ≡ₚ concat (HandlerMap.section_lines <$> d)
  /\ HandlerMap.group <$> d' = HandlerMap.group <$> d.
Proof.
  induction 1 as [|s s' d d' [Hg Hp] _ [IH1 IH2]]; [done |].
  rewrite !fmap_cons. cbn [concat]. split; [by rewrite Hp, IH1 | by rewrite Hg, IH2].
Qed.

(** X10: the HTML export of the handler-map implementation reads the
    template after the span reads of the rows and writes its output file
    once, at the end, before the message and the preview; when the template
    reads as empty it shows an error message and writes the report all the
    same.  The groups it hands to the template have pairwise distinct names
    and hold, taken together, every row exactly once, each with a [code]
    key and a category that is not empty. *)
Theorem X10_html_export_writes_every_row_once :
  forall (h : HandlerMap.Host) (this : HandlerMap.ExportFactory)
         (template : string) (parsed : list CsvEntry),
    exists (reviewExportData : list (string * list CsvEntry)) (err msg : string),
      effects (HandlerMap.exportForFormat h this html template parsed)
      = concat ((fun row => HandlerMap.readsOf h this row ++ HandlerMap.readsOf h this row)
                  <$> parsed)
        ++ ReadFile template
        :: (if truthy (HandlerMap.readFileSync h template) then []
            else [ShowErrorMessage err])
        ++ [WriteFile (HandlerMap.outputFileOf h this html)
              (Html (HandlerMap.readFileSync h template) reviewExportData);
            ShowInformationMessage msg;
            ShowPreview (HandlerMap.outputFileOf h this html)]
      /\ NoDup (fst <$> reviewExportData)
      /\ concat (snd <$> reviewExportData)
         ≡ₚ value (HandlerMap.exportForFormat h this html template parsed)
      /\ length (value (HandlerMap.exportForFormat h this html template parsed))
         = length parsed
      /\ Forall (fun row => is_Some (code row) /\ otruthy (category row) = true)
           (value (HandlerMap.exportForFormat h this html template parsed)).
Proof.
  intros h this template parsed.
  set (outputFile := HandlerMap.outputFileOf h this html).
  set (data := (fun row => value (HandlerMap.onData (HandlerMap.exportHandlerMap h this html)
                                    outputFile row)) <$> parsed).
  assert (value (HandlerMap.exportForFormat h this html template parsed)
          = HandlerMap.normalise <$> data) as Hvalue.
  { by rewrite exportForFormat_value. }
  rewrite Hvalue.
  pose proof (htmlReviewExportData_store h this data) as Hstore.
  rewrite groupResultsA_store in Hstore.
  destruct (concat_sections_perm _ _ (htmlReviewExportData_sections h this data))
    as [Hperm Hnames].
  exists (HandlerMap.resolve (HandlerMap.htmlReviewExportData h this data).1
            (HandlerMap.htmlReviewExportData h this data).2),
    ("Error when reading the template file: '" +:+ template +:+ "'"),
    ("Code review file: '" +:+ outputFile +:+ "' successfully created.").
  split; [|split; [|split; [|split]]].
  - rewrite exportForFormat_effects. cbn zeta.
    simpl HandlerMap.writeFileHeader. simpl HandlerMap.storeOutside. cbn iota.
    simpl HandlerMap.handleEnd.
    unfold ret at 1, effects at 1. simpl snd. rewrite app_nil_l.
    rewrite handleEndHtml_effects. rewrite rows_effects. reflexivity.
  - unfold HandlerMap.resolve. rewrite <- list_fmap_compose.
    change (fst ∘ _) with HandlerMap.group.
    rewrite Hnames.
    destruct (groupResultsA_GroupsOf data (HandlerMap.groupBy this)) as (Hnodup & _).
    apply (NoDup_fmap_1 Some). by rewrite <- list_fmap_compose.
  - rewrite resolve_rows. rewrite (deref_perm _ _ _ Hperm).
    rewrite (deref_perm _ _ _ (groupResultsA_positions data (HandlerMap.groupBy this))).
    rewrite Hstore.
    replace (length data) with (length (HandlerMap.normalise <$> data))
      by (by rewrite length_fmap).
    by rewrite deref_all.
  - unfold data. by rewrite !length_fmap.
  - apply Forall_fmap, Forall_forall. intros row Hrow.
    unfold data in Hrow. apply list_elem_of_fmap in Hrow as (r & -> & _).
    unfold compose. rewrite onData_value. simpl. split.
    + unfold HandlerMap.codeOf. destruct (HandlerMap.includeCodeSelection this); by eexists.
    + by apply or_else_truthy.
Qed.

(** * The files an export writes *)

Lemma readsOf_no_write h this row :
  Forall (fun e => writtenPath e = None) (HandlerMap.readsOf h this row).
Proof.
  unfold HandlerMap.readsOf. destruct (HandlerMap.includeCodeSelection this); [|done].
  rewrite getCodeForFileA_effects. apply Forall_fmap, Forall_forall. by intros t _.
Qed.

Lemma export_writes h this format template parsed :
  Forall (fun e => forall p, writtenPath e = Some p -> p = HandlerMap.outputFileOf h this format)
         (effects (HandlerMap.exportForFormat h this format template parsed)).
Proof.
  assert (forall row, Forall (fun e => forall p, writtenPath e = Some p ->
                                 p = HandlerMap.outputFileOf h this format)
                        (HandlerMap.readsOf h this row)) as Hreads.
  { intros row. eapply Forall_impl; [apply readsOf_no_write |].
    intros e He p Hp. congruence. }
  rewrite exportForFormat_effects. cbn zeta. fold (HandlerMap.outputFileOf h this format).
  apply Forall_app. split; [|apply Forall_app; split].
  - destruct format; simpl; repeat constructor; simpl; congruence.
  - apply Forall_concat, Forall_fmap, Forall_forall. intros row _. unfold compose.
    rewrite onData_effects.
    destruct format; repeat (apply Forall_app; split); try apply Hreads;
      repeat constructor; simpl; congruence.
  - destruct format; simpl HandlerMap.handleEnd; rewrite ?handleEndHtml_effects;
      [destruct (truthy _) | | | |]; repeat constructor; simpl; congruence.
Qed.

Lemma outputFile_not_inputFile h this format :
  HandlerMap.outputFileOf h this format <> HandlerMap.inputFile h this.
Proof.
  unfold HandlerMap.outputFileOf, HandlerMap.inputFile. intros Heq.
  apply (inj (String.append (HandlerMap.basePath h this))) in Heq.
  by destruct format.
Qed.

Lemma outputFile_inj h this f1 f2 :
  HandlerMap.outputFileOf h this f1 = HandlerMap.outputFileOf h this f2 -> f1 = f2.
Proof.
  unfold HandlerMap.outputFileOf. intros Heq.
  apply (inj (String.append (HandlerMap.basePath h this))) in Heq.
  by destruct f1, f2.
Qed.

(** X11: an export of the handler-map implementation writes and appends to
    one file only, the output file of its format, which is never the input
    file; and two different formats never share an output file. *)
Theorem X11_export_never_writes_the_input_file :
  forall (h : HandlerMap.Host) (this : HandlerMap.ExportFactory)
         (format : ExportFormat) (template : string) (parsed : list CsvEntry),
    Forall (fun e => forall p, writtenPath e = Some p ->
                       p = HandlerMap.outputFileOf h this format
                       /\ p <> HandlerMap.inputFile h this)
           (effects (HandlerMap.exportForFormat h this format template parsed))
    /\ (forall format', HandlerMap.outputFileOf h this format
                        = HandlerMap.outputFileOf h this format' -> format = format').
Proof.
  intros h this format template parsed. split.
  - eapply Forall_impl; [apply export_writes |]. intros e He p Hp.
    rewrite (He p Hp). split; [done | apply outputFile_not_inputFile].
  - intros format'. apply outputFile_inj.
Qed.


(** * The JSON export with code *)

Lemma setOrDeleteCodeB_is_Some (h : PerFormat.Host) (this : PerFormat.ExportFactory)
    (row : CsvEntry) :
  PerFormat.includeCodeSelection this = true ->
  (is_Some (PerFormat.setOrDeleteCode h this row)
   <-> Forall (fun t => occurs "-" t = true) (split "|" (lines row)))
  /\ (forall row', PerFormat.setOrDeleteCode h this row = Some row' -> is_Some (code row')).
Proof.
  intros Hinc. unfold PerFormat.setOrDeleteCode. rewrite Hinc.
  rewrite getCodeForFileB_value.
  destruct (forallb PerFormat.hasEnd (split "|" (lines row))) eqn:Hall.
  - split.
    + split; [intros _ | by eexists].
      pose proof (proj1 (forallb_forall _ _) Hall) as Hall'.
      apply Forall_forall. intros t Ht.
      rewrite <- hasEnd_occurs. apply Hall'. by apply list_elem_of_In.
    + intros row' [= <-]. by eexists.
  - split; [|done]. split; [by intros [? ?] |]. intros HF. exfalso.
    assert (forallb PerFormat.hasEnd (split "|" (lines row)) = true) as Htrue; [|congruence].
    apply (proj2 (forallb_forall _ _)). intros t Ht. rewrite hasEnd_occurs.
    apply (proj1 (Forall_forall _ _) HF). by apply list_elem_of_In.
Qed.

(** X13: with the include-code toggle on, every row object of the JSON
    export has a [code] key, in both implementations; the per-format
    implementation completes exactly when in every row every piece of the
    range selector holds a dash, and throws otherwise. *)
Theorem X13_json_with_code :
  forall (hA : HandlerMap.Host) (thisA : HandlerMap.ExportFactory)
         (hB : PerFormat.Host) (thisB : PerFormat.ExportFactory)
         (template : string) (parsed : list CsvEntry),
    HandlerMap.includeCodeSelection thisA = true ->
    PerFormat.includeCodeSelection thisB = true ->
    Forall2 (fun row row' =>
               code row' = Some (value (HandlerMap.getCodeForFile hA thisA
                                          (filename row) (lines row))))
            parsed (value (HandlerMap.exportForFormat hA thisA json template parsed))
    /\ (is_Some (PerFormat.exportAsJson hB thisB parsed)
        <-> Forall (fun row => Forall (fun t => occurs "-" t = true) (split "|" (lines row)))
                   parsed)
    /\ (forall rows, PerFormat.exportAsJson hB thisB parsed = Some rows ->
          length rows = length parsed /\ Forall (fun r => is_Some (code r)) rows).
Proof.
  intros hA thisA hB thisB template parsed HincA HincB. split; [|split].
  - rewrite exportForFormat_value. cbn zeta. apply Forall2_fmap_r.
    apply Forall_Forall2_diag, Forall_forall. intros row _. unfold compose.
    rewrite onData_value. simpl. unfold HandlerMap.codeOf. by rewrite HincA.
  - unfold PerFormat.exportAsJson. rewrite mapM_is_Some.
    split; intros HF; apply Forall_forall; intros row Hrow;
      pose proof (proj1 (Forall_forall _ _) HF row Hrow) as H;
      by apply (setOrDeleteCodeB_is_Some hB thisB row HincB).
  - intros rows Hrows. unfold PerFormat.exportAsJson in Hrows.
    apply mapM_Some in Hrows. split.
    + symmetry. by eapply Forall2_length.
    + clear -Hrows HincB. induction Hrows as [|row row' l l' Hrow _ IH]; constructor; [|done].
      by apply (setOrDeleteCodeB_is_Some hB thisB row HincB).
Qed.

(** A run where the hypotheses of X13 hold. *)
Lemma X13_witness :
  HandlerMap.includeCodeSelection (Example.factoryA Group_filename true) = true
  /\ PerFormat.includeCodeSelection (Example.factoryB Group_filename true) = true
  /\ (Forall2 (fun row row' =>
                 code row' = Some (value (HandlerMap.getCodeForFile Example.hostA
                                            (Example.factoryA Group_filename true)
                                            (filename row) (lines row))))
        [Example.rowEscaped; Example.rowPriority7]
        (value (HandlerMap.exportForFormat Example.hostA (Example.factoryA Group_filename true)
                  json "t.hbs" [Example.rowEscaped; Example.rowPriority7]))
      /\ (is_Some (PerFormat.exportAsJson Example.hostB (Example.factoryB Group_filename true)
                     [Example.rowEscaped; Example.rowPriority7])
          <-> Forall (fun row => Forall (fun t => occurs "-" t = true) (split "|" (lines row)))
                [Example.rowEscaped; Example.rowPriority7])
      /\ (forall rows,
            PerFormat.exportAsJson Example.hostB (Example.factoryB Group_filename true)
              [Example.rowEscaped; Example.rowPriority7] = Some rows ->
            length rows = length [Example.rowEscaped; Example.rowPriority7]
            /\ Forall (fun r => is_Some (code r)) rows)).
Proof.
  split; [reflexivity | split; [reflexivity |]].
  apply (X13_json_with_code Example.hostA (Example.factoryA Group_filename true)
           Example.hostB (Example.factoryB Group_filename true)
           "t.hbs" [Example.rowEscaped; Example.rowPriority7]); reflexivity.
Defined.

(** * The list of files with comments *)

(** X14: [getFilesContainingComments] gives no entry when the input file
    does not exist or the generator check fails, and does not touch the
    rows then; otherwise it gives one entry per file name: the labels are
    pairwise distinct, every row belongs to exactly one entry, the rows of
    an entry are those whose file name is its label, each entry is for at
    least one row and has the number of its rows between brackets as its
    description, and the numbers of all the entries add up to the number of
    rows. *)
Theorem X14_files_with_comments_count_every_row :
  forall (existsSync check : bool) (entries : list CsvEntry),
    let result := HandlerMap.getFilesContainingComments existsSync check entries in
    (existsSync && check = false -> result = (entries, []))
    /\ NoDup (HandlerMap.label <$> result.2)
    /\ Forall (fun e =>
                 0 < length (HandlerMap.section_lines (HandlerMap.data e))
                 /\ HandlerMap.label e = HandlerMap.group (HandlerMap.data e)
                 /\ HandlerMap.description e
                    = "(" +:+ string_of_nat (length (HandlerMap.section_lines (HandlerMap.data e)))
                      +:+ ")"
                 /\ Forall (fun p => exists row, entries !! p = Some row
                                                 /\ filename row = HandlerMap.label e)
                      (HandlerMap.section_lines (HandlerMap.data e)))
              result.2
    /\ concat ((fun e => HandlerMap.section_lines (HandlerMap.data e)) <$> result.2)
       ≡ₚ (if existsSync && check then seq 0 (length entries) else [])
    /\ sum_list ((fun e => length (HandlerMap.section_lines (HandlerMap.data e))) <$> result.2)
       = (if existsSync && check then length entries else 0).
Proof.
  intros existsSync check entries result. subst result.
  unfold HandlerMap.getFilesContainingComments.
  destruct existsSync, check; simpl negb; simpl orb; simpl andb; cbn iota;
    try (split; [done | split; [constructor | split; [constructor | split; done]]]).
  pose proof (groupResultsA_GroupsOf entries Group_filename) as (Hnodup & Hall & _).
  pose proof (groupResultsA_positions entries Group_filename) as Hpos.
  pose proof (groupResultsA_store entries Group_filename) as Hstore.
  destruct (HandlerMap.groupResults entries Group_filename) as [store d]. simpl in *.
  subst store.
  split; [done | split; [|split; [|split]]].
  - rewrite <- list_fmap_compose. apply (NoDup_fmap_1 Some).
    by rewrite <- list_fmap_compose.
  - apply Forall_fmap, Forall_forall. intros s Hs. simpl.
    pose proof (proj1 (Forall_forall _ _) Hall s Hs) as (Hne & _ & Hrows).
    split; [destruct (HandlerMap.section_lines s); [done | simpl; lia] |].
    split; [done | split; [done |]].
    eapply Forall_impl; [exact Hrows |]. intros p (_ & row & Hrow & Hkey).
    rewrite list_lookup_fmap in Hrow.
    destruct (entries !! p) as [row0|]; [|done].
    exists row0. split; [done |]. injection Hrow as <-. by injection Hkey as <-.
  - rewrite <- list_fmap_compose. exact Hpos.
  - rewrite <- list_fmap_compose.
    change ((fun e => length (HandlerMap.section_lines (HandlerMap.data e))) ∘ _)
      with (fun s : HandlerMap.ReviewFileExportSection => length (HandlerMap.section_lines s)).
    rewrite <- length_concat_fmap. rewrite Hpos. by rewrite length_seq.
Qed.

(** * The order of the rows of a group in the HTML report *)

(** X15: when [sortCsvEntryForLines] compares any two rows one way or the
    other, the HTML handler hands over, for the grouping key [filename],
    groups whose rows are in the order of that comparator, and for the key
    [category] groups whose rows are in the order of the input. *)
Theorem X15_html_rows_sorted_for_filename :
  forall (h : HandlerMap.Host) (this : HandlerMap.ExportFactory) (rows : list CsvEntry),
    (forall a b, (HandlerMap.sortCsvEntryForLines h a b <= 0)%Z
                 \/ (HandlerMap.sortCsvEntryForLines h b a <= 0)%Z) ->
    match HandlerMap.groupBy this with
    | Group_filename =>
        Forall (fun s =>
                  Sorted (fun p q =>
                            forall rp rq,
                              (HandlerMap.htmlReviewExportData h this rows).1 !! p = Some rp ->
                              (HandlerMap.htmlReviewExportData h this rows).1 !! q = Some rq ->
                              (HandlerMap.sortCsvEntryForLines h rp rq <= 0)%Z)
                         (HandlerMap.section_lines s))
               (HandlerMap.htmlReviewExportData h this rows).2
    | Group_category =>
        Forall (fun s => Sorted lt (HandlerMap.section_lines s))
               (HandlerMap.htmlReviewExportData h this rows).2
    end.
Proof.
  intros h this rows Htotal.
  pose proof (groupResultsA_GroupsOf rows (HandlerMap.groupBy this)) as (_ & Hall & _).
  unfold HandlerMap.htmlReviewExportData.
  destruct (HandlerMap.groupResults rows (HandlerMap.groupBy this)) as [store d].
  destruct (HandlerMap.groupBy this); simpl in *.
  - apply Forall_fmap, Forall_forall. intros s _. simpl.
    eapply Sorted_weaken; [| apply sort_Sorted].
    + intros p q Hle rp rq Hp Hq. cbn beta in Hle. by rewrite Hp, Hq in Hle.
    + intros p q. destruct (store !! p), (store !! q); try (left; lia). apply Htotal.
  - eapply Forall_impl; [exact Hall |]. by intros s (_ & Hs & _).
Qed.

(** A host whose comparator is total, for both grouping keys. *)
Lemma X15_witness :
  (forall a b, (HandlerMap.sortCsvEntryForLines Example.hostA a b <= 0)%Z
               \/ (HandlerMap.sortCsvEntryForLines Example.hostA b a <= 0)%Z)
  /\ Forall (fun s =>
               Sorted (fun p q =>
                         forall rp rq,
                           (HandlerMap.htmlReviewExportData Example.hostA
                              (Example.factoryA Group_filename false)
                              [Example.rowUnsorted; Example.rowEscaped; Example.rowPriority7]).1
                             !! p = Some rp ->
                           (HandlerMap.htmlReviewExportData Example.hostA
                              (Example.factoryA Group_filename false)
                              [Example.rowUnsorted; Example.rowEscaped; Example.rowPriority7]).1
                             !! q = Some rq ->
                           (HandlerMap.sortCsvEntryForLines Example.hostA rp rq <= 0)%Z)
                      (HandlerMap.section_lines s))
            (HandlerMap.htmlReviewExportData Example.hostA
               (Example.factoryA Group_filename false)
               [Example.rowUnsorted; Example.rowEscaped; Example.rowPriority7]).2.
Proof.
  split.
  - intros a b. apply sortLineSelections_total.
  - apply (X15_html_rows_sorted_for_filename Example.hostA
             (Example.factoryA Group_filename false)
             [Example.rowUnsorted; Example.rowEscaped; Example.rowPriority7]).
    intros a b. apply sortLineSelections_total.
Defined.

(** * The HTML export of the per-format implementation *)

Lemma htmlCodeB (h : PerFormat.Host) (this : PerFormat.ExportFactory) (row : CsvEntry) :
  let f := fun row =>
             if PerFormat.includeCodeSelection this
             then match PerFormat.getCodeForFile h this (filename row) (lines row) with
                  | Some c => Some (with_code (Some c) row)
                  | None => None
                  end
             else Some (with_code (Some EmptyString) row) in
  (f row = None <->
     PerFormat.includeCodeSelection this = true
     /\ ~ Forall (fun t => occurs "-" t = true) (split "|" (lines row)))
  /\ (forall row', f row = Some row' -> exists c, row' = with_code (Some c) row).
Proof.
  cbn zeta. destruct (PerFormat.includeCodeSelection this).
  - pose proof (Hvalue := getCodeForFileB_value h this (filename row) (lines row)).
    destruct (PerFormat.getCodeForFile h this (filename row) (lines row)) as [c|] eqn:Hc.
    + split.
      * split; [done |]. intros [_ Hnot]. exfalso. apply Hnot.
        destruct (forallb PerFormat.hasEnd (split "|" (lines row))) eqn:Hall; [|done].
        pose proof (proj1 (forallb_forall _ _) Hall) as Hall'.
        apply Forall_forall. intros t Ht.
        rewrite <- hasEnd_occurs. apply Hall'. by apply list_elem_of_In.
      * intros row' [= <-]. by exists c.
    + split; [|done]. split; [|done]. intros _. split; [done |]. intros HF.
      assert (forallb PerFormat.hasEnd (split "|" (lines row)) = true) as Htrue.
      { apply (proj2 (forallb_forall _ _)). intros t Ht. rewrite hasEnd_occurs.
        apply (proj1 (Forall_forall _ _) HF). by apply list_elem_of_In. }
      by rewrite Htrue in Hvalue.
  - split; [split; [done | by intros [? _]] |]. intros row' [= <-]. by eexists.
Qed.

(** X16: the HTML export of the per-format implementation throws exactly
    when code is included and some row has a piece of its range selector
    without a dash; otherwise it hands over one object per row, each with
    the text [getCodeForFile] extracts for the row as its code (the empty
    text when code is not included), a category that is not empty and one
    of the four priority labels as its priority, in groups that hold every
    row exactly once. *)
Theorem X16_per_format_html_export :
  forall (h : PerFormat.Host) (this : PerFormat.ExportFactory) (parsed : list CsvEntry),
    (PerFormat.exportAsHtml h this parsed = None
     <-> PerFormat.includeCodeSelection this = true
         /\ Exists (fun row => ~ Forall (fun t => occurs "-" t = true) (split "|" (lines row)))
                   parsed)
    /\ match PerFormat.exportAsHtml h this parsed with
       | Some (store, reviewExportData) =>
           length store = length parsed
           /\ Forall2 (fun row row' =>
                         filename row' = filename row /\ lines row' = lines row
                         /\ comment row' = comment row
                         /\ code row'
                            = if PerFormat.includeCodeSelection this
                              then PerFormat.getCodeForFile h this (filename row) (lines row)
                              else Some EmptyString)
                      parsed store
           /\ Forall (fun row =>
                        is_Some (code row) /\ otruthy (category row) = true
                        /\ exists l, priority row = Some l
                                     /\ l ∈ ["low"; "medium"; "high"; "none"])
                     store
           /\ concat (PerFormat.section_lines <$> reviewExportData) ≡ₚ seq 0 (length parsed)
       | None =>
           PerFormat.includeCodeSelection this = true
           /\ Exists (fun row => ~ Forall (fun t => occurs "-" t = true) (split "|" (lines row)))
                     parsed
       end.
Proof.
  intros h this parsed.
  assert (PerFormat.exportAsHtml h this parsed = None
          -> PerFormat.includeCodeSelection this = true
             /\ Exists (fun row => ~ Forall (fun t => occurs "-" t = true)
                                      (split "|" (lines row))) parsed) as Hnone.
  { unfold PerFormat.exportAsHtml.
    destruct (mapM _ parsed) as [rows|] eqn:Hmap; [done |]. intros _.
    apply mapM_None in Hmap.
    assert (PerFormat.includeCodeSelection this = true) as Hinc.
    { apply Exists_exists in Hmap as (row & _ & Hrow).
      by apply (proj1 (htmlCodeB h this row)) in Hrow as [? _]. }
    split; [done |]. eapply Exists_impl; [exact Hmap |]. intros row Hrow.
    by apply (proj1 (htmlCodeB h this row)) in Hrow as [_ ?]. }
  split; [split; [exact Hnone |] |].
  - intros [Hinc Hex]. unfold PerFormat.exportAsHtml.
    replace (mapM _ parsed) with (@None (list CsvEntry)); [done |].
    symmetry. apply mapM_None. eapply Exists_impl; [exact Hex |]. intros row Hrow.
    by apply (proj1 (htmlCodeB h this row)).
  - destruct (PerFormat.exportAsHtml h this parsed) as [[store d]|] eqn:Hrun;
      [|by apply Hnone].
    unfold PerFormat.exportAsHtml in Hrun.
    destruct (mapM _ parsed) as [rows|] eqn:Hmap; [|done].
    pose proof (groupResultsB_store rows (PerFormat.groupBy this)) as Hstore.
    pose proof (groupResultsB_positions rows (PerFormat.groupBy this)) as Hpos.
    destruct (PerFormat.groupResults rows (PerFormat.groupBy this)) as [store' d'].
    injection Hrun as <- <-.
    simpl in *. subst store'.
    apply mapM_Some in Hmap. pose proof (Forall2_length _ _ _ Hmap) as Hlen.
    split; [by rewrite length_fmap | split; [|split; [| by rewrite <- Hlen in Hpos]]].
    + apply Forall2_fmap_r. eapply Forall2_impl; [exact Hmap |].
      intros row row' Hrow. cbn beta in Hrow. unfold compose.
      destruct (PerFormat.includeCodeSelection this).
      * destruct (PerFormat.getCodeForFile h this (filename row) (lines row)) as [c|];
          [by injection Hrow as <- | done].
      * by injection Hrow as <-.
    + apply Forall_fmap. clear -Hmap.
      induction Hmap as [|row row' l l' Hrow _ IH]; constructor; [|done].
      destruct (proj2 (htmlCodeB h this row) row' Hrow) as (c & ->). simpl.
      split; [by eexists | split; [by apply or_else_truthy |]].
      eexists. split; [done | apply priorityNameB_labels].
Qed.
